(** * SceneManager.cpp

    A shallow embedding of the reusable services of [SceneManager]:
    the texture registry ([CreateGLTexture], [BindGLTextures],
    [DestroyGLTextures], [FindTextureSlot]), the material registry
    ([FindMaterial]), the transform composer ([SetTransformations]) and the
    shader parameter facade ([SetShaderColor], [SetShaderTexture],
    [SetTextureUVScale], [SetShaderMaterial]).

    The C++ methods mutate the object, the OpenGL context, the shader
    program and the console; here they are computations in a state monad
    with faults over the record [World]. *)

From Stdlib Require Import ZArith String Reals Lra Lia.
From stdpp Require Import base list strings.

Local Open Scope Z_scope.

(** ** Scalars

    The C++ type [float].  The GLM templates only use the operations below,
    so the embedding is generic in the scalar type. *)

Class Scalar (float : Type) : Type := {
  f_zero : float;                       (* the literal 0.0f *)
  f_one : float;                        (* the literal 1.0f *)
  f_deg2rad : float;                    (* 0.01745329251994329576923690768489 *)
  f_add : float -> float -> float;
  f_sub : float -> float -> float;
  f_mul : float -> float -> float;
  f_cos : float -> float;
  f_sin : float -> float;
  f_inversesqrt : float -> float
}.

(** ** GLM vectors and matrices (glm::vec2, vec3, vec4, mat4) *)

Section GLM.
Context {float : Type}.

Record vec2 : Type := Vec2 { v2_x : float; v2_y : float }.
Record vec3 : Type := Vec3 { v3_x : float; v3_y : float; v3_z : float }.
Record vec4 : Type :=
  Vec4 { v4_x : float; v4_y : float; v4_z : float; v4_w : float }.

(** [glm::mat4] is column major: [m[i]] is the i-th column. *)
Record mat4 : Type :=
  Mat4 { col0 : vec4; col1 : vec4; col2 : vec4; col3 : vec4 }.

Context `{Scalar float}.

(** [operator*(vec4, T)] and [operator+(vec4, vec4)] *)
Definition vec4_muls (v : vec4) (s : float) : vec4 :=
  Vec4 (f_mul (v4_x v) s) (f_mul (v4_y v) s)
       (f_mul (v4_z v) s) (f_mul (v4_w v) s).

Definition vec4_add (a b : vec4) : vec4 :=
  Vec4 (f_add (v4_x a) (v4_x b)) (f_add (v4_y a) (v4_y b))
       (f_add (v4_z a) (v4_z b)) (f_add (v4_w a) (v4_w b)).

(** [operator*(vec3, T)] and [operator*(T, vec3)] *)
Definition vec3_muls (v : vec3) (s : float) : vec3 :=
  Vec3 (f_mul (v3_x v) s) (f_mul (v3_y v) s) (f_mul (v3_z v) s).

Definition vec3_smul (s : float) (v : vec3) : vec3 :=
  Vec3 (f_mul s (v3_x v)) (f_mul s (v3_y v)) (f_mul s (v3_z v)).

(** [glm::dot]: [tmp = a * b; return tmp.x + tmp.y + tmp.z] *)
Definition glm_dot (a b : vec3) : float :=
  f_add (f_add (f_mul (v3_x a) (v3_x b)) (f_mul (v3_y a) (v3_y b)))
        (f_mul (v3_z a) (v3_z b)).

(** [glm::normalize]: [v * inversesqrt(dot(v, v))] *)
Definition glm_normalize (v : vec3) : vec3 :=
  vec3_muls v (f_inversesqrt (glm_dot v v)).

(** [glm::radians]: [degrees * 0.01745329251994329576923690768489] *)
Definition glm_radians (degrees : float) : float :=
  f_mul degrees f_deg2rad.

(** [mat4(s)]: [s] on the diagonal, zero elsewhere. *)
Definition mat4_diag (s : float) : mat4 :=
  Mat4 (Vec4 s f_zero f_zero f_zero)
       (Vec4 f_zero s f_zero f_zero)
       (Vec4 f_zero f_zero s f_zero)
       (Vec4 f_zero f_zero f_zero s).

Definition mat4_identity : mat4 := mat4_diag f_one.

(** [operator*(mat4, mat4)]: column j of the product is
    [m1[0]*m2[j][0] + m1[1]*m2[j][1] + m1[2]*m2[j][2] + m1[3]*m2[j][3]]. *)
Definition mat4_mul_col (m1 : mat4) (b : vec4) : vec4 :=
  vec4_add
    (vec4_add
       (vec4_add (vec4_muls (col0 m1) (v4_x b)) (vec4_muls (col1 m1) (v4_y b)))
       (vec4_muls (col2 m1) (v4_z b)))
    (vec4_muls (col3 m1) (v4_w b)).

Definition mat4_mul (m1 m2 : mat4) : mat4 :=
  Mat4 (mat4_mul_col m1 (col0 m2)) (mat4_mul_col m1 (col1 m2))
       (mat4_mul_col m1 (col2 m2)) (mat4_mul_col m1 (col3 m2)).

(** [glm::translate(m, v)]:
    [Result = m; Result[3] = m[0]*v[0] + m[1]*v[1] + m[2]*v[2] + m[3]] *)
Definition glm_translate_m (m : mat4) (v : vec3) : mat4 :=
  Mat4 (col0 m) (col1 m) (col2 m)
       (vec4_add
          (vec4_add
             (vec4_add (vec4_muls (col0 m) (v3_x v))
                       (vec4_muls (col1 m) (v3_y v)))
             (vec4_muls (col2 m) (v3_z v)))
          (col3 m)).

(** [glm::scale(m, v)]: the first three columns scaled, the fourth kept. *)
Definition glm_scale_m (m : mat4) (v : vec3) : mat4 :=
  Mat4 (vec4_muls (col0 m) (v3_x v)) (vec4_muls (col1 m) (v3_y v))
       (vec4_muls (col2 m) (v3_z v)) (col3 m).

(** [glm::rotate(m, angle, v)]: the axis is normalised, the 3x3 rotation
    is built from [c = cos angle], [s = sin angle] and
    [temp = (1 - c) * axis], and [m] is multiplied by it. *)
Definition glm_rotate_m (m : mat4) (angle : float) (v : vec3) : mat4 :=
  let c := f_cos angle in
  let s := f_sin angle in
  let axis := glm_normalize v in
  let temp := vec3_smul (f_sub f_one c) axis in
  let r00 := f_add c (f_mul (v3_x temp) (v3_x axis)) in
  let r01 := f_add (f_mul (v3_x temp) (v3_y axis)) (f_mul s (v3_z axis)) in
  let r02 := f_sub (f_mul (v3_x temp) (v3_z axis)) (f_mul s (v3_y axis)) in
  let r10 := f_sub (f_mul (v3_y temp) (v3_x axis)) (f_mul s (v3_z axis)) in
  let r11 := f_add c (f_mul (v3_y temp) (v3_y axis)) in
  let r12 := f_add (f_mul (v3_y temp) (v3_z axis)) (f_mul s (v3_x axis)) in
  let r20 := f_add (f_mul (v3_z temp) (v3_x axis)) (f_mul s (v3_y axis)) in
  let r21 := f_sub (f_mul (v3_z temp) (v3_y axis)) (f_mul s (v3_x axis)) in
  let r22 := f_add c (f_mul (v3_z temp) (v3_z axis)) in
  let lin (a b d : float) : vec4 :=
    vec4_add (vec4_add (vec4_muls (col0 m) a) (vec4_muls (col1 m) b))
             (vec4_muls (col2 m) d) in
  Mat4 (lin r00 r01 r02) (lin r10 r11 r12) (lin r20 r21 r22) (col3 m).

(** The one-argument forms of <glm/gtx/transform.hpp> start from the
    identity matrix. *)
Definition glm_translate (v : vec3) : mat4 := glm_translate_m mat4_identity v.
Definition glm_rotate (angle : float) (v : vec3) : mat4 :=
  glm_rotate_m mat4_identity angle v.
Definition glm_scale (v : vec3) : mat4 := glm_scale_m mat4_identity v.
End GLM.

Arguments vec2 : clear implicits.
Arguments vec3 : clear implicits.
Arguments vec4 : clear implicits.
Arguments mat4 : clear implicits.

(** ** The world the methods act on *)

(** [std::string::compare(other) == 0] *)
Definition compare_is_zero (a b : string) : bool :=
  match String.compare a b with
  | Eq => true
  | _ => false
  end.

(** The OpenGL calls [SceneManager] issues.  The context is observed through
    the trace of calls and the texture names in use. *)
Inductive GLenum : Type :=
| GL_TEXTURE_WRAP_S | GL_TEXTURE_WRAP_T
| GL_TEXTURE_MIN_FILTER | GL_TEXTURE_MAG_FILTER
| GL_REPEAT | GL_LINEAR
| GL_RGB8 | GL_RGB | GL_RGBA8 | GL_RGBA.

Inductive GLCall : Type :=
| GenTextures (name : Z)
| BindTexture2D (name : Z)
| TexParameteri2D (pname param : GLenum)
| TexImage2D (internalformat : GLenum) (width height : Z) (format : GLenum)
| GenerateMipmap2D
| ActiveTexture (unit : Z).

Record GLContext : Type := {
  glTextureNames : list Z;   (* names generated and not deleted *)
  glTrace : list GLCall      (* calls so far, oldest first *)
}.

(** [glGenTextures] returns a name that was not in use; here, one more than
    the largest name in use (name 0 is reserved). *)
Definition gl_fresh_name (names : list Z) : Z :=
  1 + foldr Z.max 0 names.

(** What [stbi_load] returns for a readable file: the pixel buffer is kept
    abstract, its dimensions and channel count are outputs of the call. *)
Record Image : Type := {
  img_width : Z;
  img_height : Z;
  img_channels : Z
}.

(** Lines written to [std::cout]. *)
Inductive ConsoleLine : Type :=
| SuccessfullyLoaded (filename : string) (width height channels : Z)
| NotImplementedChannels (channels : Z)
| CouldNotLoad (filename : string).

Inductive fault : Type :=
| NullPointer      (* a call through a null [m_pShaderManager] *)
| OutOfBounds      (* an index outside [m_textureIDs] or [m_objectMaterials] *)
| SignedOverflow   (* [m_loadedTextures++] at INT_MAX *)
| OutOfFuel.       (* a loop model ran out of iterations *)

Definition INT_MAX : Z := 2147483647.

Section Scene.
Context {float : Type} `{Scalar float}.

(** A uniform value written through the [ShaderManager]. *)
Inductive uniform : Type :=
| UInt (v : Z)
| UFloat (v : float)
| UVec2 (v : vec2 float)
| UVec3 (v : vec3 float)
| UVec4 (v : vec4 float)
| UMat4 (v : mat4 float)
| USampler2D (slot : Z).

(** Modelled from the spec: the class [ShaderManager] (ShaderManager.h is not
    part of the sources) is the "shader parameter sink" of section 6, a
    set-uniform operation by name for each value type.  The object records
    the writes it received, oldest first. *)
Record ShaderManager : Type := {
  uniformWrites : list (string * uniform)
}.

(** Modelled from the spec: the structs [TEXTURE_INFO] and [OBJECT_MATERIAL]
    and the data members of [SceneManager] are declared in SceneManager.h,
    which is not part of the sources; the fields are the ones
    SceneManager.cpp reads and writes (section 3 of the spec, TextureEntry
    and MaterialEntry). *)
Record TEXTURE_INFO : Type := {
  tex_ID : Z;
  tex_tag : string
}.

Record OBJECT_MATERIAL : Type := {
  mat_diffuseColor : vec3 float;
  mat_specularColor : vec3 float;
  mat_shininess : float;
  mat_tag : string
}.

Record SceneManager : Type := {
  m_pShaderManager : option ShaderManager;   (* [None] is the null pointer *)
  m_loadedTextures : Z;
  m_textureIDs : list TEXTURE_INFO;          (* a fixed-size array *)
  m_objectMaterials : list OBJECT_MATERIAL   (* a std::vector *)
}.

Record World : Type := {
  this : SceneManager;
  gl : GLContext;
  cout : list ConsoleLine
}.

(** ** State monad with faults *)

Inductive outcome (A : Type) : Type :=
| Ok (a : A) (w : World)
| Fault (f : fault).
#[local] Arguments Ok {A} a w.
#[local] Arguments Fault {A} f.

Definition M (A : Type) : Type := World -> outcome A.

Definition ret {A : Type} (a : A) : M A := fun w => Ok a w.

Definition bind {A B : Type} (c : M A) (k : A -> M B) : M B :=
  fun w =>
    match c w with
    | Ok a w' => k a w'
    | Fault f => Fault f
    end.

Definition raise {A : Type} (f : fault) : M A := fun _ => Fault f.

Notation "'let*' x ':=' c 'in' k" := (bind c (fun x => k))
  (at level 10, x name, c at level 100, k at level 200, only parsing).
Notation "'do' c 'then' k" := (bind c (fun _ => k))
  (at level 10, c at level 100, k at level 200, only parsing).

Definition get_this : M SceneManager := fun w => Ok (this w) w.

Definition put_this (s : SceneManager) : M unit :=
  fun w => Ok tt {| this := s; gl := gl w; cout := cout w |}.

Definition print (line : ConsoleLine) : M unit :=
  fun w => Ok tt {| this := this w; gl := gl w; cout := cout w ++ [line] |}.

Definition gl_call (c : GLCall) : M unit :=
  fun w =>
    Ok tt {| this := this w;
             gl := {| glTextureNames := glTextureNames (gl w);
                      glTrace := glTrace (gl w) ++ [c] |};
             cout := cout w |}.

(** [glGenTextures(1, &name)] *)
Definition glGenTextures : M Z :=
  fun w =>
    let name := gl_fresh_name (glTextureNames (gl w)) in
    Ok name {| this := this w;
               gl := {| glTextureNames := glTextureNames (gl w) ++ [name];
                        glTrace := glTrace (gl w) ++ [GenTextures name] |};
               cout := cout w |}.

(** [m_textureIDs[index]] read, and written through [f]. *)
Definition texture_at (index : Z) : M TEXTURE_INFO :=
  let* s := get_this in
  if 0 <=? index then
    match m_textureIDs s !! Z.to_nat index with
    | Some e => ret e
    | None => raise OutOfBounds
    end
  else raise OutOfBounds.

Definition texture_update (index : Z) (f : TEXTURE_INFO -> TEXTURE_INFO) : M unit :=
  let* e := texture_at index in
  let* s := get_this in
  put_this {| m_pShaderManager := m_pShaderManager s;
              m_loadedTextures := m_loadedTextures s;
              m_textureIDs := <[Z.to_nat index := f e]> (m_textureIDs s);
              m_objectMaterials := m_objectMaterials s |}.

Definition set_ID (v : Z) (e : TEXTURE_INFO) : TEXTURE_INFO :=
  {| tex_ID := v; tex_tag := tex_tag e |}.

Definition set_tag (v : string) (e : TEXTURE_INFO) : TEXTURE_INFO :=
  {| tex_ID := tex_ID e; tex_tag := v |}.

(** [m_loadedTextures++] *)
Definition increment_loadedTextures : M unit :=
  let* s := get_this in
  if m_loadedTextures s <? INT_MAX then
    put_this {| m_pShaderManager := m_pShaderManager s;
                m_loadedTextures := m_loadedTextures s + 1;
                m_textureIDs := m_textureIDs s;
                m_objectMaterials := m_objectMaterials s |}
  else raise SignedOverflow.

(** [m_objectMaterials[index]] *)
Definition material_at (index : Z) : M OBJECT_MATERIAL :=
  let* s := get_this in
  if 0 <=? index then
    match m_objectMaterials s !! Z.to_nat index with
    | Some e => ret e
    | None => raise OutOfBounds
    end
  else raise OutOfBounds.

(** A call [m_pShaderManager->set...Value(name, value)]. *)
Definition shader_set (name : string) (value : uniform) : M unit :=
  let* s := get_this in
  match m_pShaderManager s with
  | Some sm =>
      put_this {| m_pShaderManager :=
                    Some {| uniformWrites := uniformWrites sm ++ [(name, value)] |};
                  m_loadedTextures := m_loadedTextures s;
                  m_textureIDs := m_textureIDs s;
                  m_objectMaterials := m_objectMaterials s |}
  | None => raise NullPointer
  end.

Definition setIntValue (name : string) (v : Z) : M unit := shader_set name (UInt v).
Definition setFloatValue (name : string) (v : float) : M unit := shader_set name (UFloat v).
Definition setVec2Value (name : string) (v : vec2 float) : M unit := shader_set name (UVec2 v).
Definition setVec3Value (name : string) (v : vec3 float) : M unit := shader_set name (UVec3 v).
Definition setVec4Value (name : string) (v : vec4 float) : M unit := shader_set name (UVec4 v).
Definition setMat4Value (name : string) (v : mat4 float) : M unit := shader_set name (UMat4 v).
Definition setSampler2DValue (name : string) (v : Z) : M unit := shader_set name (USampler2D v).

(** [NULL != m_pShaderManager] *)
Definition shader_not_null : M bool :=
  let* s := get_this in
  ret (match m_pShaderManager s with Some _ => true | None => false end).

(** ** The methods of SceneManager.cpp *)

Definition g_ModelName : string := "model".
Definition g_ColorValueName : string := "objectColor".
Definition g_TextureValueName : string := "objectTexture".
Definition g_UseTextureName : string := "bUseTexture".
Definition g_UseLightingName : string := "bUseLighting".

(** The image decoder [stbi_load]: [None] is the null pointer it returns
    for a file it cannot read.  The vertical flip it is asked for and the
    release of the pixel buffer ([stbi_image_free]) concern the buffer, which
    is kept abstract. *)
Variable stbi_load : string -> option Image.

(** [glTexImage2D] for the channel count, or the message and [false]:
    the [if / else if / else return false] of [CreateGLTexture]. *)
Definition upload_image (image : Image) : M bool :=
  let width := img_width image in
  let height := img_height image in
  let colorChannels := img_channels image in
  if colorChannels =? 3 then
    do gl_call (TexImage2D GL_RGB8 width height GL_RGB) then
    ret true
  else if colorChannels =? 4 then
    do gl_call (TexImage2D GL_RGBA8 width height GL_RGBA) then
    ret true
  else
    do print (NotImplementedChannels colorChannels) then
    ret false.

Definition CreateGLTexture (filename : string) (tag : string) : M bool :=
  match stbi_load filename with
  | Some image =>
      do print (SuccessfullyLoaded filename (img_width image)
                  (img_height image) (img_channels image)) then
      let* textureID := glGenTextures in
      do gl_call (BindTexture2D textureID) then
      do gl_call (TexParameteri2D GL_TEXTURE_WRAP_S GL_REPEAT) then
      do gl_call (TexParameteri2D GL_TEXTURE_WRAP_T GL_REPEAT) then
      do gl_call (TexParameteri2D GL_TEXTURE_MIN_FILTER GL_LINEAR) then
      do gl_call (TexParameteri2D GL_TEXTURE_MAG_FILTER GL_LINEAR) then
      let* uploaded := upload_image image in
      if uploaded then
        do gl_call GenerateMipmap2D then
        do gl_call (BindTexture2D 0) then
        let* s := get_this in
        do texture_update (m_loadedTextures s) (set_ID textureID) then
        do texture_update (m_loadedTextures s) (set_tag tag) then
        do increment_loadedTextures then
        ret true
      else ret false
  | None =>
      do print (CouldNotLoad filename) then
      ret false
  end.

(** A run of [CreateGLTexture] calls, one after the other, with the value
    each call returned: what [LoadSceneTextures] does with its six files. *)
Fixpoint CreateGLTexture_all (loads : list (string * string)) : M (list bool) :=
  match loads with
  | [] => ret []
  | (filename, tag) :: rest =>
      let* bReturn := CreateGLTexture filename tag in
      let* others := CreateGLTexture_all rest in
      ret (bReturn :: others)
  end.

(** [for (int i = 0; i < m_loadedTextures; i++) body(i)], from [i]. *)
Fixpoint for_loadedTextures (fuel : nat) (i : Z) (body : Z -> M unit) : M unit :=
  match fuel with
  | O => raise OutOfFuel
  | S fuel' =>
      let* s := get_this in
      if i <? m_loadedTextures s then
        do body i then
        for_loadedTextures fuel' (i + 1) body
      else ret tt
  end.

Definition BindGLTextures : M unit :=
  let* s := get_this in
  for_loadedTextures (S (Z.to_nat (m_loadedTextures s))) 0
    (fun i =>
       do gl_call (ActiveTexture i) then
       let* e := texture_at i in
       gl_call (BindTexture2D (tex_ID e))).

(** The body is [glGenTextures(1, &m_textureIDs[i].ID)]. *)
Definition DestroyGLTextures : M unit :=
  let* s := get_this in
  for_loadedTextures (S (Z.to_nat (m_loadedTextures s))) 0
    (fun i =>
       do texture_at i then
       let* name := glGenTextures in
       texture_update i (set_ID name)).

(** The [while ((index < m_loadedTextures) && (bFound == false))] loop of
    [FindTextureSlot], from the loop variables given. *)
Fixpoint FindTextureSlot_while (fuel : nat) (tag : string)
    (textureSlot index : Z) (bFound : bool) : M Z :=
  match fuel with
  | O => raise OutOfFuel
  | S fuel' =>
      let* s := get_this in
      if (index <? m_loadedTextures s) && negb bFound then
        let* e := texture_at index in
        if compare_is_zero (tex_tag e) tag then
          FindTextureSlot_while fuel' tag index index true
        else
          FindTextureSlot_while fuel' tag textureSlot (index + 1) bFound
      else ret textureSlot
  end.

Definition FindTextureSlot (tag : string) : M Z :=
  let* s := get_this in
  FindTextureSlot_while (S (Z.to_nat (m_loadedTextures s))) tag (-1) 0 false.

(** The loop of [FindMaterial]; [material] is the reference parameter. *)
Fixpoint FindMaterial_while (fuel : nat) (tag : string)
    (material : OBJECT_MATERIAL) (index : Z) (bFound : bool)
    : M OBJECT_MATERIAL :=
  match fuel with
  | O => raise OutOfFuel
  | S fuel' =>
      let* s := get_this in
      if (index <? Z.of_nat (length (m_objectMaterials s))) && negb bFound then
        let* e := material_at index in
        if compare_is_zero (mat_tag e) tag then
          FindMaterial_while fuel' tag
            {| mat_diffuseColor := mat_diffuseColor e;
               mat_specularColor := mat_specularColor e;
               mat_shininess := mat_shininess e;
               mat_tag := mat_tag material |}
            index true
        else
          FindMaterial_while fuel' tag material (index + 1) bFound
      else ret material
  end.

(** Returns the [bool] and the contents of the reference parameter. *)
Definition FindMaterial (tag : string) (material : OBJECT_MATERIAL)
    : M (bool * OBJECT_MATERIAL) :=
  let* s := get_this in
  if (length (m_objectMaterials s) =? 0)%nat then
    ret (false, material)
  else
    let* material' :=
      FindMaterial_while (S (length (m_objectMaterials s))) tag material 0 false in
    ret (true, material').

Definition SetTransformations (scaleXYZ : vec3 float)
    (XrotationDegrees YrotationDegrees ZrotationDegrees : float)
    (positionXYZ : vec3 float) : M unit :=
  let scale := glm_scale scaleXYZ in
  let rotationX :=
    glm_rotate (glm_radians XrotationDegrees) (Vec3 f_one f_zero f_zero) in
  let rotationY :=
    glm_rotate (glm_radians YrotationDegrees) (Vec3 f_zero f_one f_zero) in
  let rotationZ :=
    glm_rotate (glm_radians ZrotationDegrees) (Vec3 f_zero f_zero f_one) in
  let translation := glm_translate positionXYZ in
  let modelView :=
    mat4_mul (mat4_mul (mat4_mul (mat4_mul translation rotationZ) rotationY)
                       rotationX) scale in
  let* present := shader_not_null in
  if present then setMat4Value g_ModelName modelView
  else ret tt.

Definition SetShaderColor
    (redColorValue greenColorValue blueColorValue alphaValue : float) : M unit :=
  let currentColor :=
    Vec4 redColorValue greenColorValue blueColorValue alphaValue in
  let* present := shader_not_null in
  if present then
    do setIntValue g_UseTextureName 0 then
    do setVec4Value g_ColorValueName currentColor then
    setFloatValue "blendFactor" f_zero
  else ret tt.

Definition SetShaderTexture (textureTag : string) : M unit :=
  let* present := shader_not_null in
  if present then
    do setIntValue g_UseTextureName 1 then
    let* textureID := FindTextureSlot textureTag in
    do setSampler2DValue g_TextureValueName textureID then
    do setSampler2DValue "blendTexture" textureID then
    setFloatValue "blendFactor" f_zero
  else ret tt.

Definition SetTextureUVScale (u v : float) : M unit :=
  let* present := shader_not_null in
  if present then setVec2Value "UVscale" (Vec2 u v)
  else ret tt.

(** What the local [OBJECT_MATERIAL material;] of [SetShaderMaterial] holds
    before [FindMaterial] is called: it is declared without an initialiser. *)
Variable uninitialized_material : OBJECT_MATERIAL.

Definition SetShaderMaterial (materialTag : string) : M unit :=
  let* s := get_this in
  if (0 <? length (m_objectMaterials s))%nat then
    let material := uninitialized_material in
    let* found := FindMaterial materialTag material in
    let bReturn := fst found in
    let material := snd found in
    if bReturn then
      do setVec3Value "material.diffuseColor" (mat_diffuseColor material) then
      do setVec3Value "material.specularColor" (mat_specularColor material) then
      setFloatValue "material.shininess" (mat_shininess material)
    else ret tt
  else ret tt.

(** The conversion of the unsigned 32-bit [ID] to the [int] that
    [FindTextureID] returns.  ([ID] is passed to [glGenTextures] by address
    in [DestroyGLTextures], so it has the type [GLuint].) *)
Definition int_of_uint32 (v : Z) : Z := (v + 2 ^ 31) mod 2 ^ 32 - 2 ^ 31.

(** The loop of [FindTextureID]. *)
Fixpoint FindTextureID_while (fuel : nat) (tag : string)
    (textureID index : Z) (bFound : bool) : M Z :=
  match fuel with
  | O => raise OutOfFuel
  | S fuel' =>
      let* s := get_this in
      if (index <? m_loadedTextures s) && negb bFound then
        let* e := texture_at index in
        if compare_is_zero (tex_tag e) tag then
          FindTextureID_while fuel' tag (int_of_uint32 (tex_ID e)) index true
        else
          FindTextureID_while fuel' tag textureID (index + 1) bFound
      else ret textureID
  end.

Definition FindTextureID (tag : string) : M Z :=
  let* s := get_this in
  FindTextureID_while (S (Z.to_nat (m_loadedTextures s))) tag (-1) 0 false.

(** [SetShaderTextures]: the body holds a comment only. *)
Definition SetShaderTextures (textureTag textureTag2 : string) : M unit :=
  ret tt.

(** [LoadSceneTextures]: six loads, each result assigned to [bReturn] and
    never read, then [BindGLTextures]. *)
Definition LoadSceneTextures : M unit :=
  let* bReturn := CreateGLTexture "textures/black plastic.jpg" "blackPlastic" in
  let* bReturn := CreateGLTexture "textures/wood.jpg" "stand" in
  let* bReturn := CreateGLTexture "textures/fanblade.jpg" "blade" in
  let* bReturn := CreateGLTexture "textures/wall.jpg" "wall" in
  let* bReturn := CreateGLTexture "textures/microchip.jpg" "chip" in
  let* bReturn := CreateGLTexture "textures/gpu.jpg" "gpu" in
  BindGLTextures.

(** [m_objectMaterials.push_back(material)] *)
Definition push_back_material (material : OBJECT_MATERIAL) : M unit :=
  let* s := get_this in
  put_this {| m_pShaderManager := m_pShaderManager s;
              m_loadedTextures := m_loadedTextures s;
              m_textureIDs := m_textureIDs s;
              m_objectMaterials := m_objectMaterials s ++ [material] |}.

(** The value of a decimal literal: [float_literal n d] is the [float] the
    compiler produces for the decimal n/d (5.0f is [float_literal 5 1],
    20.03 is [float_literal 2003 100]). *)
Variable float_literal : Z -> Z -> float.

Definition plasticMaterial : OBJECT_MATERIAL :=
  {| mat_diffuseColor :=
       Vec3 (float_literal 5 1) (float_literal 5 1) (float_literal 5 1);
     mat_specularColor :=
       Vec3 (float_literal 5 1) (float_literal 5 1) (float_literal 5 1);
     mat_shininess := float_literal 30 1;
     mat_tag := "plastic" |}.

Definition woodMaterial : OBJECT_MATERIAL :=
  {| mat_diffuseColor :=
       Vec3 (float_literal 2 10) (float_literal 2 10) (float_literal 3 10);
     mat_specularColor := Vec3 f_zero f_zero f_zero;
     mat_shininess := float_literal 1 10;
     mat_tag := "wood" |}.

Definition middleMaterial : OBJECT_MATERIAL :=
  {| mat_diffuseColor := Vec3 f_zero f_zero f_zero;
     mat_specularColor := Vec3 f_zero f_zero f_zero;
     mat_shininess := float_literal 5 1;
     mat_tag := "middle" |}.

Definition motherMaterial : OBJECT_MATERIAL :=
  {| mat_diffuseColor :=
       Vec3 (float_literal 2 10) (float_literal 2 10) (float_literal 3 10);
     mat_specularColor := Vec3 f_zero f_zero f_zero;
     mat_shininess := float_literal 2003 100;
     mat_tag := "mother" |}.

Definition glassMaterial : OBJECT_MATERIAL :=
  {| mat_diffuseColor :=
       Vec3 (float_literal 2 10) (float_literal 2 10) (float_literal 2 10);
     mat_specularColor := Vec3 f_one f_one f_one;
     mat_shininess := float_literal 95 1;
     mat_tag := "glass" |}.

Definition DefineObjectMaterials : M unit :=
  do push_back_material plasticMaterial then
  do push_back_material woodMaterial then
  do push_back_material middleMaterial then
  do push_back_material motherMaterial then
  push_back_material glassMaterial.

End Scene.

Arguments uniform : clear implicits.
Arguments ShaderManager : clear implicits.
Arguments OBJECT_MATERIAL : clear implicits.
Arguments SceneManager : clear implicits.
Arguments World : clear implicits.
Arguments outcome : clear implicits.
Arguments M : clear implicits.
Arguments Ok {float A} a w.
Arguments Fault {float A} f.

(** ** Vocabulary of the statements *)

Section Vocabulary.
Context {float : Type}.

(** The array holds at least the [m_loadedTextures] entries in use. *)
Definition textures_in_bounds (s : SceneManager float) : Prop :=
  m_loadedTextures s <= Z.of_nat (length (m_textureIDs s)).

(** No entry in use carries [tag]. *)
Definition texture_absent (tag : string) (s : SceneManager float) : Prop :=
  forall (j : nat) (e : TEXTURE_INFO),
    Z.of_nat j < m_loadedTextures s ->
    m_textureIDs s !! j = Some e -> tex_tag e <> tag.

(** Entry [i] is in use and is the first one that carries [tag]. *)
Definition texture_first_at (tag : string) (i : nat) (s : SceneManager float)
    : Prop :=
  Z.of_nat i < m_loadedTextures s /\
  (exists e, m_textureIDs s !! i = Some e /\ tex_tag e = tag) /\
  (forall (j : nat) (e : TEXTURE_INFO),
      (j < i)%nat -> m_textureIDs s !! j = Some e -> tex_tag e <> tag).

(** The entries in use carry exactly [tags], in this order. *)
Definition registry_tags (tags : list string) (s : SceneManager float) : Prop :=
  m_loadedTextures s = Z.of_nat (length tags) /\
  (length tags <= length (m_textureIDs s))%nat /\
  (forall (i : nat) (t : string),
      tags !! i = Some t ->
      exists e, m_textureIDs s !! i = Some e /\ tex_tag e = t).

(** The file decodes to an image with three or four channels. *)
Definition decodes_supported (stbi_load : string -> option Image)
    (filename : string) : Prop :=
  exists image,
    stbi_load filename = Some image /\
    (img_channels image = 3 \/ img_channels image = 4).

(** The value a uniform holds after a sequence of writes: the last one
    written under its name. *)
Fixpoint last_write (name : string) (writes : list (string * uniform float))
    : option (uniform float) :=
  match writes with
  | [] => None
  | (n, v) :: rest =>
      match last_write name rest with
      | Some v' => Some v'
      | None => if String.eqb n name then Some v else None
      end
  end.

Definition uniform_value (w : World float) (name : string)
    : option (uniform float) :=
  match m_pShaderManager (this w) with
  | Some sm => last_write name (uniformWrites sm)
  | None => None
  end.

(** [w] after the shader manager it points to received [writes]; a world
    with a null [m_pShaderManager] has no shader to write to. *)
Definition write_uniforms (writes : list (string * uniform float))
    (w : World float) : World float :=
  {| this :=
       {| m_pShaderManager :=
            match m_pShaderManager (this w) with
            | Some sm => Some {| uniformWrites := uniformWrites sm ++ writes |}
            | None => None
            end;
          m_loadedTextures := m_loadedTextures (this w);
          m_textureIDs := m_textureIDs (this w);
          m_objectMaterials := m_objectMaterials (this w) |};
     gl := gl w;
     cout := cout w |}.

Context `{Scalar float}.

(** The model matrix as the specification words it: independent scale,
    rotationX, rotationY, rotationZ and translation matrices, multiplied as
    translation * rotationZ * rotationY * rotationX * scale. *)
Definition compose_spec (scale : vec3 float) (rotationDegrees : vec3 float)
    (translation : vec3 float) : mat4 float :=
  let S := glm_scale scale in
  let Rx := glm_rotate (glm_radians (v3_x rotationDegrees))
                       (Vec3 f_one f_zero f_zero) in
  let Ry := glm_rotate (glm_radians (v3_y rotationDegrees))
                       (Vec3 f_zero f_one f_zero) in
  let Rz := glm_rotate (glm_radians (v3_z rotationDegrees))
                       (Vec3 f_zero f_zero f_one) in
  let T := glm_translate translation in
  mat4_mul (mat4_mul (mat4_mul (mat4_mul T Rz) Ry) Rx) S.

(** What the neutral transform needs of the arithmetic: the values of the
    operations at 0 and 1 only.  Each equation holds in IEEE 754 arithmetic
    with a [cos] and [sin] that are exact at 0, and in exact arithmetic. *)
Class NeutralArithmetic : Prop := {
  radians_zero : f_mul f_zero f_deg2rad = f_zero;
  cos_zero : f_cos f_zero = f_one;
  sin_zero : f_sin f_zero = f_zero;
  inversesqrt_one : f_inversesqrt f_one = f_one;
  mul_one_one : f_mul f_one f_one = f_one;
  mul_zero_zero : f_mul f_zero f_zero = f_zero;
  mul_zero_one : f_mul f_zero f_one = f_zero;
  mul_one_zero : f_mul f_one f_zero = f_zero;
  add_one_zero : f_add f_one f_zero = f_one;
  add_zero_one : f_add f_zero f_one = f_one;
  add_zero_zero : f_add f_zero f_zero = f_zero;
  sub_one_one : f_sub f_one f_one = f_zero;
  sub_zero_zero : f_sub f_zero f_zero = f_zero
}.

End Vocabulary.

Arguments NeutralArithmetic float {_}.

(** ** Vocabulary of the further statements *)

Section FurtherVocabulary.
Context {float : Type}.

(** [w] after the OpenGL context received [calls]. *)
Definition with_gl_calls (calls : list GLCall) (w : World float) : World float :=
  {| this := this w;
     gl := {| glTextureNames := glTextureNames (gl w);
              glTrace := glTrace (gl w) ++ calls |};
     cout := cout w |}.

(** Texture unit [unit] bound to the first entry, [unit + 1] to the next,
    and so on. *)
Fixpoint bind_calls (unit : Z) (entries : list TEXTURE_INFO) : list GLCall :=
  match entries with
  | [] => []
  | e :: rest =>
      ActiveTexture unit :: BindTexture2D (tex_ID e) :: bind_calls (unit + 1) rest
  end.

(** The tags of the loads that returned [true], in call order. *)
Fixpoint registered_tags (loads : list (string * string)) (results : list bool)
    : list string :=
  match loads, results with
  | (_, tag) :: loads', true :: results' => tag :: registered_tags loads' results'
  | _ :: loads', false :: results' => registered_tags loads' results'
  | _, _ => []
  end.

(** No material carries [tag]. *)
Definition material_absent (tag : string) (s : SceneManager float) : Prop :=
  forall (j : nat) (e : OBJECT_MATERIAL float),
    m_objectMaterials s !! j = Some e -> mat_tag e <> tag.

(** Material [i] is [e], the first one that carries [tag]. *)
Definition material_first_at (tag : string) (i : nat)
    (e : OBJECT_MATERIAL float) (s : SceneManager float) : Prop :=
  m_objectMaterials s !! i = Some e /\
  mat_tag e = tag /\
  (forall (j : nat) (e' : OBJECT_MATERIAL float),
      (j < i)%nat -> m_objectMaterials s !! j = Some e' -> mat_tag e' <> tag).

(** [into] after [FindMaterial] copied the colours and the shininess of
    [from] into it: the tag of [into] stays. *)
Definition copy_values (from into : OBJECT_MATERIAL float)
    : OBJECT_MATERIAL float :=
  {| mat_diffuseColor := mat_diffuseColor from;
     mat_specularColor := mat_specularColor from;
     mat_shininess := mat_shininess from;
     mat_tag := mat_tag into |}.

(** The scene manager, the OpenGL context and the console of [w'] are those
    of [w], but for uniforms written to the shader manager. *)
Definition only_uniforms_written (w w' : World float) : Prop :=
  exists writes, w' = write_uniforms writes w.

End FurtherVocabulary.

(** ** Concrete instances *)

(** Exact real arithmetic as a scalar type. *)
#[export] Instance Scalar_R : Scalar R := {|
  f_zero := 0%R;
  f_one := 1%R;
  f_deg2rad := 0.01745329251994329576923690768489%R;
  f_add := Rplus;
  f_sub := Rminus;
  f_mul := Rmult;
  f_cos := cos;
  f_sin := sin;
  f_inversesqrt := fun x => (/ sqrt x)%R
|}.

(** The texture array before any load: 16 slots (the comment of
    [BindGLTextures]: "There are up to 16 slots"), tags empty. *)
Definition empty_textureIDs : list TEXTURE_INFO :=
  replicate 16 {| tex_ID := 0; tex_tag := "" |}.

(** The materials [DefineObjectMaterials] pushes, in its order. *)
Definition scene_materials : list (OBJECT_MATERIAL R) :=
  [ {| mat_diffuseColor := Vec3 5 5 5; mat_specularColor := Vec3 5 5 5;
       mat_shininess := 30; mat_tag := "plastic" |};
    {| mat_diffuseColor := Vec3 0.2 0.2 0.3; mat_specularColor := Vec3 0 0 0;
       mat_shininess := 0.1; mat_tag := "wood" |};
    {| mat_diffuseColor := Vec3 0 0 0; mat_specularColor := Vec3 0 0 0;
       mat_shininess := 5; mat_tag := "middle" |};
    {| mat_diffuseColor := Vec3 0.2 0.2 0.3; mat_specularColor := Vec3 0 0 0;
       mat_shininess := 20.03; mat_tag := "mother" |};
    {| mat_diffuseColor := Vec3 0.2 0.2 0.2; mat_specularColor := Vec3 1 1 1;
       mat_shininess := 95; mat_tag := "glass" |} ]%R.

(** The texture files and tags of [LoadSceneTextures], in its order. *)
Definition scene_textures : list (string * string) :=
  [ ("textures/black plastic.jpg", "blackPlastic");
    ("textures/wood.jpg", "stand");
    ("textures/fanblade.jpg", "blade");
    ("textures/wall.jpg", "wall");
    ("textures/microchip.jpg", "chip");
    ("textures/gpu.jpg", "gpu") ]%string.

(** A file system on which these six files decode as 512 x 512 RGB images,
    "textures/gray.png" as a one-channel image, and nothing else is
    readable. *)
Definition scene_files (filename : string) : option Image :=
  if bool_decide (filename ∈ scene_textures.*1) then
    Some {| img_width := 512; img_height := 512; img_channels := 3 |}
  else if String.eqb filename "textures/gray.png" then
    Some {| img_width := 512; img_height := 512; img_channels := 1 |}
  else None.

(** A scene manager just constructed around a shader manager, or around a
    null pointer. *)
Definition new_world (shader : option (ShaderManager R)) : World R :=
  {| this := {| m_pShaderManager := shader;
                m_loadedTextures := 0;
                m_textureIDs := empty_textureIDs;
                m_objectMaterials := [] |};
     gl := {| glTextureNames := []; glTrace := [] |};
     cout := [] |}.

(** The registries as [LoadSceneTextures] and [DefineObjectMaterials] leave
    them. *)
Definition scene_world (shader : option (ShaderManager R)) : World R :=
  {| this := {| m_pShaderManager := shader;
                m_loadedTextures := 6;
                m_textureIDs :=
                  [ {| tex_ID := 1; tex_tag := "blackPlastic" |};
                    {| tex_ID := 2; tex_tag := "stand" |};
                    {| tex_ID := 3; tex_tag := "blade" |};
                    {| tex_ID := 4; tex_tag := "wall" |};
                    {| tex_ID := 5; tex_tag := "chip" |};
                    {| tex_ID := 6; tex_tag := "gpu" |} ]
                  ++ replicate 10 {| tex_ID := 0; tex_tag := "" |};
                m_objectMaterials := scene_materials |};
     gl := {| glTextureNames := [1; 2; 3; 4; 5; 6]; glTrace := [] |};
     cout := [] |}.

Definition no_writes : ShaderManager R := {| uniformWrites := [] |}.

(** The registry of the scene with "plastic" defined a second time, with
    other values, behind the five materials. *)
Definition redefined_plastic : OBJECT_MATERIAL R :=
  {| mat_diffuseColor := Vec3 1 0 0; mat_specularColor := Vec3 0 1 0;
     mat_shininess := 2; mat_tag := "plastic" |}%R.

Definition redefined_world : World R :=
  {| this := {| m_pShaderManager := Some no_writes;
                m_loadedTextures := 0;
                m_textureIDs := empty_textureIDs;
                m_objectMaterials := scene_materials ++ [redefined_plastic] |};
     gl := {| glTextureNames := []; glTrace := [] |};
     cout := [] |}.

(** The world after the six loads of [LoadSceneTextures] on a scene manager
    just constructed around a null shader manager. *)
Definition loaded_world : World R :=
  Eval vm_compute in
    match CreateGLTexture_all scene_files scene_textures (new_world None) with
    | Ok _ w => w
    | Fault _ => new_world None
    end.

(** Worlds for the further statements. *)

(** [loaded_world] after a load of an unreadable file. *)
Definition undecodable_world : World R :=
  Eval vm_compute in
    match CreateGLTexture scene_files "textures/missing.jpg" "missing"
            loaded_world with
    | Ok _ w => w
    | Fault _ => loaded_world
    end.

(** [loaded_world] after one more load under the tag "blade", which is
    already in use. *)
Definition reloaded_world : World R :=
  Eval vm_compute in
    match CreateGLTexture scene_files "textures/wood.jpg" "blade"
            loaded_world with
    | Ok _ w => w
    | Fault _ => loaded_world
    end.

(** Three loads, the second of a one-channel image. *)
Definition mixed_loads : list (string * string) :=
  [ ("textures/wood.jpg", "stand");
    ("textures/gray.png", "gray");
    ("textures/gpu.jpg", "gpu") ]%string.

Definition mixed_world : World R :=
  Eval vm_compute in
    match CreateGLTexture_all scene_files mixed_loads (new_world None) with
    | Ok _ w => w
    | Fault _ => new_world None
    end.

(** A registry with all of its sixteen slots in use. *)
Definition full_world : World R :=
  {| this := {| m_pShaderManager := None;
                m_loadedTextures := 16;
                m_textureIDs := empty_textureIDs;
                m_objectMaterials := [] |};
     gl := {| glTextureNames := []; glTrace := [] |};
     cout := [] |}.

(** The matrices of the specification in exact arithmetic, written row by
    row as in a textbook, and the product of two matrices entry by entry:
    row times column. *)
Definition mat4_of_rows
    (a00 a01 a02 a03 a10 a11 a12 a13 a20 a21 a22 a23 a30 a31 a32 a33 : R)
    : mat4 R :=
  Mat4 (Vec4 a00 a10 a20 a30) (Vec4 a01 a11 a21 a31)
       (Vec4 a02 a12 a22 a32) (Vec4 a03 a13 a23 a33).

Definition scale_matrix (s : vec3 R) : mat4 R :=
  mat4_of_rows
    (v3_x s) 0 0 0
    0 (v3_y s) 0 0
    0 0 (v3_z s) 0
    0 0 0 1.

Definition translation_matrix (t : vec3 R) : mat4 R :=
  mat4_of_rows
    1 0 0 (v3_x t)
    0 1 0 (v3_y t)
    0 0 1 (v3_z t)
    0 0 0 1.

Definition rotation_matrix_X (angle : R) : mat4 R :=
  mat4_of_rows
    1 0 0 0
    0 (cos angle) (- sin angle) 0
    0 (sin angle) (cos angle) 0
    0 0 0 1.

Definition rotation_matrix_Y (angle : R) : mat4 R :=
  mat4_of_rows
    (cos angle) 0 (sin angle) 0
    0 1 0 0
    (- sin angle) 0 (cos angle) 0
    0 0 0 1.

Definition rotation_matrix_Z (angle : R) : mat4 R :=
  mat4_of_rows
    (cos angle) (- sin angle) 0 0
    (sin angle) (cos angle) 0 0
    0 0 1 0
    0 0 0 1.

(** Degrees to radians, with the constant GLM multiplies by. *)
Definition radians_of_degrees (degrees : R) : R :=
  (degrees * 0.01745329251994329576923690768489)%R.

(** Component [r] of a vector and entry (row [r], column [c]) of a matrix. *)
Definition vec4_component (v : vec4 R) (r : nat) : R :=
  match r with
  | 0%nat => v4_x v
  | 1%nat => v4_y v
  | 2%nat => v4_z v
  | _ => v4_w v
  end.

Definition mat4_entry (m : mat4 R) (r c : nat) : R :=
  match c with
  | 0%nat => vec4_component (col0 m) r
  | 1%nat => vec4_component (col1 m) r
  | 2%nat => vec4_component (col2 m) r
  | _ => vec4_component (col3 m) r
  end.

Definition matrix_product (a b : mat4 R) : mat4 R :=
  let e (r c : nat) : R :=
    (mat4_entry a r 0 * mat4_entry b 0 c + mat4_entry a r 1 * mat4_entry b 1 c
     + mat4_entry a r 2 * mat4_entry b 2 c
     + mat4_entry a r 3 * mat4_entry b 3 c)%R in
  (mat4_of_rows
     (e 0 0) (e 0 1) (e 0 2) (e 0 3)
     (e 1 0) (e 1 1) (e 1 2) (e 1 3)
     (e 2 0) (e 2 1) (e 2 2) (e 2 3)
     (e 3 0) (e 3 1) (e 3 2) (e 3 3))%nat.

(** Decimal literals in exact arithmetic. *)
Definition float_literal_R (n d : Z) : R := (IZR n / IZR d)%R.

(** ** Properties *)

Section Properties.
Context {float : Type} `{Scalar float}.
Variable stbi_load : string -> option Image.
Variable uninitialized_material : OBJECT_MATERIAL float.

Implicit Types (w : World float) (s : SceneManager float) (tag : string).

Ltac run :=
  unfold bind, ret, raise, get_this, put_this, shader_not_null; simpl.

Ltac fields :=
  cbn [this gl cout m_loadedTextures m_textureIDs m_objectMaterials
       m_pShaderManager glTextureNames glTrace].

Lemma string_compare_refl (a : string) : String.compare a a = Eq.
Proof.
  induction a as [|c a IH]; simpl; [reflexivity|].
  unfold Ascii.compare. now rewrite N.compare_refl.
Qed.

Lemma compare_is_zero_true (a b : string) :
  compare_is_zero a b = true <-> a = b.
Proof.
  unfold compare_is_zero. split.
  - destruct (String.compare a b) eqn:E; try discriminate.
    intros _. now apply String.compare_eq_iff.
  - intros ->. now rewrite string_compare_refl.
Qed.

Lemma compare_is_zero_false (a b : string) :
  a <> b -> compare_is_zero a b = false.
Proof.
  intros Hne. destruct (compare_is_zero a b) eqn:E; [|reflexivity].
  apply compare_is_zero_true in E. contradiction.
Qed.

Lemma texture_at_ok w (k : nat) (e : TEXTURE_INFO) :
  m_textureIDs (this w) !! k = Some e ->
  texture_at (Z.of_nat k) w = Ok e w.
Proof.
  intros Hk. unfold texture_at. run.
  destruct (Z.leb_spec 0 (Z.of_nat k)); [|lia].
  now rewrite Nat2Z.id, Hk.
Qed.

(** Entries that do not carry the tag are stepped over, one iteration each. *)
Lemma FindTextureSlot_while_skip (d : nat) :
  forall (fuel : nat) tag (slot : Z) (k : nat) w,
    Z.of_nat (k + d) <= m_loadedTextures (this w) ->
    (k + d <= length (m_textureIDs (this w)))%nat ->
    (forall (j : nat) (e : TEXTURE_INFO),
        (k <= j < k + d)%nat ->
        m_textureIDs (this w) !! j = Some e -> tex_tag e <> tag) ->
    FindTextureSlot_while (d + fuel) tag slot (Z.of_nat k) false w =
    FindTextureSlot_while fuel tag slot (Z.of_nat (k + d)) false w.
Proof.
  induction d as [|d IH]; intros fuel tag slot k w HL Hlen Hne.
  - now rewrite Nat.add_0_r.
  - destruct (lookup_lt_is_Some_2 (m_textureIDs (this w)) k) as [e He]; [lia|].
    cbn [Nat.add FindTextureSlot_while]. run.
    destruct (Z.ltb_spec (Z.of_nat k) (m_loadedTextures (this w))); [|lia].
    simpl. rewrite (texture_at_ok w k e He).
    rewrite compare_is_zero_false by (apply (Hne k); [lia|exact He]).
    replace (Z.of_nat k + 1) with (Z.of_nat (S k)) by lia.
    rewrite IH.
    + now replace (S k + d)%nat with (k + S d)%nat by lia.
    + lia.
    + lia.
    + intros j e' Hj. apply Hne. lia.
Qed.

Lemma FindTextureSlot_absent_ok w tag :
  textures_in_bounds (this w) ->
  texture_absent tag (this w) ->
  FindTextureSlot tag w = Ok (-1) w.
Proof.
  intros Hb Habs. unfold FindTextureSlot, bind at 1, get_this. cbn beta iota.
  destruct (Z_lt_le_dec 0 (m_loadedTextures (this w))) as [Hpos|Hneg].
  - replace (S (Z.to_nat (m_loadedTextures (this w))))
      with (Z.to_nat (m_loadedTextures (this w)) + 1)%nat by lia.
    change 0 with (Z.of_nat 0).
    rewrite FindTextureSlot_while_skip.
    + simpl. run.
      destruct (Z.ltb_spec (Z.of_nat (Z.to_nat (m_loadedTextures (this w))))
                  (m_loadedTextures (this w))); [lia|reflexivity].
    + lia.
    + unfold textures_in_bounds in Hb. lia.
    + intros j e Hj. apply Habs. lia.
  - replace (Z.to_nat (m_loadedTextures (this w))) with 0%nat by lia.
    simpl. run.
    destruct (Z.ltb_spec 0 (m_loadedTextures (this w))); [lia|reflexivity].
Qed.

Lemma FindTextureSlot_found_ok w tag (i : nat) :
  textures_in_bounds (this w) ->
  texture_first_at tag i (this w) ->
  FindTextureSlot tag w = Ok (Z.of_nat i) w.
Proof.
  intros Hb (Hi & (e & He & Htag) & Hfirst).
  unfold FindTextureSlot, bind at 1, get_this. cbn beta iota.
  replace (S (Z.to_nat (m_loadedTextures (this w))))
    with (i + S (S (Z.to_nat (m_loadedTextures (this w)) - S i)))%nat by lia.
  change 0 with (Z.of_nat 0).
  rewrite FindTextureSlot_while_skip.
  - cbn [Nat.add FindTextureSlot_while]. run.
    destruct (Z.ltb_spec (Z.of_nat i) (m_loadedTextures (this w))); [|lia].
    simpl. rewrite (texture_at_ok w i e He).
    assert (Hc : compare_is_zero (tex_tag e) tag = true)
      by now apply compare_is_zero_true.
    rewrite Hc. rewrite andb_false_r. reflexivity.
  - lia.
  - apply lookup_lt_Some in He. lia.
  - intros j e' Hj. apply Hfirst. lia.
Qed.

(** *** The shader parameter facade *)

Lemma shader_set_ok w (sm : ShaderManager float) (name : string)
    (v : uniform float) :
  m_pShaderManager (this w) = Some sm ->
  shader_set name v w = Ok tt (write_uniforms [(name, v)] w).
Proof.
  intros Hsm. unfold shader_set, write_uniforms. run. now rewrite Hsm.
Qed.

Lemma write_uniforms_shader w (sm : ShaderManager float)
    (ws : list (string * uniform float)) :
  m_pShaderManager (this w) = Some sm ->
  m_pShaderManager (this (write_uniforms ws w)) =
  Some {| uniformWrites := uniformWrites sm ++ ws |}.
Proof. intros Hsm. simpl. now rewrite Hsm. Qed.

Lemma write_uniforms_app w (a b : list (string * uniform float)) :
  write_uniforms b (write_uniforms a w) = write_uniforms (a ++ b) w.
Proof.
  unfold write_uniforms. simpl.
  destruct (m_pShaderManager (this w)); simpl; [|reflexivity].
  now rewrite <- app_assoc.
Qed.

Lemma last_write_app (name : string) (a b : list (string * uniform float)) :
  last_write name (a ++ b) =
  match last_write name b with
  | Some v => Some v
  | None => last_write name a
  end.
Proof.
  induction a as [|[n v] a IH]; simpl.
  - now destruct (last_write name b).
  - rewrite IH. now destruct (last_write name b).
Qed.

Lemma bind_Ok {A B : Type} (c : M float A) (k : A -> M float B) w (a : A)
    (w' : World float) :
  c w = Ok a w' -> bind c k w = k a w'.
Proof. intros Hc. unfold bind. now rewrite Hc. Qed.

Lemma shader_not_null_Some w (sm : ShaderManager float) :
  m_pShaderManager (this w) = Some sm -> shader_not_null w = Ok true w.
Proof. intros Hsm. unfold shader_not_null. run. now rewrite Hsm. Qed.

Lemma shader_not_null_None w :
  m_pShaderManager (this w) = None -> shader_not_null w = Ok false w.
Proof. intros Hsm. unfold shader_not_null. run. now rewrite Hsm. Qed.

(** One facade call after another: the writes accumulate. *)
Ltac shader_step Hsm :=
  erewrite bind_Ok
    by (eapply shader_set_ok; first [exact Hsm | eapply write_uniforms_shader; exact Hsm]);
  rewrite ?write_uniforms_app; cbn [app].

Lemma SetShaderColor_ok w (sm : ShaderManager float) (r g b a : float) :
  m_pShaderManager (this w) = Some sm ->
  SetShaderColor r g b a w =
  Ok tt (write_uniforms
           [(g_UseTextureName, UInt 0);
            (g_ColorValueName, UVec4 (Vec4 r g b a));
            ("blendFactor"%string, UFloat f_zero)] w).
Proof.
  intros Hsm. unfold SetShaderColor.
  rewrite (bind_Ok _ _ _ _ _ (shader_not_null_Some w sm Hsm)).
  unfold setIntValue, setVec4Value, setFloatValue.
  shader_step Hsm. shader_step Hsm.
  erewrite shader_set_ok by (eapply write_uniforms_shader; exact Hsm).
  now rewrite write_uniforms_app.
Qed.

Lemma SetTextureUVScale_ok w (sm : ShaderManager float) (u v : float) :
  m_pShaderManager (this w) = Some sm ->
  SetTextureUVScale u v w =
  Ok tt (write_uniforms [("UVscale"%string, UVec2 (Vec2 u v))] w).
Proof.
  intros Hsm. unfold SetTextureUVScale.
  rewrite (bind_Ok _ _ _ _ _ (shader_not_null_Some w sm Hsm)).
  unfold setVec2Value. now erewrite shader_set_ok by exact Hsm.
Qed.

(** [SetShaderTexture] writes whatever [FindTextureSlot] returned. *)
Lemma SetShaderTexture_ok w (sm : ShaderManager float) tag (slot : Z) :
  m_pShaderManager (this w) = Some sm ->
  (forall ws, FindTextureSlot tag (write_uniforms ws w)
              = Ok slot (write_uniforms ws w)) ->
  SetShaderTexture tag w =
  Ok tt (write_uniforms
           [(g_UseTextureName, UInt 1);
            (g_TextureValueName, USampler2D slot);
            ("blendTexture"%string, USampler2D slot);
            ("blendFactor"%string, UFloat f_zero)] w).
Proof.
  intros Hsm Hfind. unfold SetShaderTexture.
  rewrite (bind_Ok _ _ _ _ _ (shader_not_null_Some w sm Hsm)).
  unfold setIntValue, setSampler2DValue, setFloatValue.
  shader_step Hsm.
  rewrite (bind_Ok _ _ _ _ _ (Hfind _)).
  shader_step Hsm. shader_step Hsm.
  erewrite shader_set_ok by (eapply write_uniforms_shader; exact Hsm).
  now rewrite write_uniforms_app.
Qed.

Lemma write_uniforms_null w (ws : list (string * uniform float)) :
  m_pShaderManager (this w) = None -> write_uniforms ws w = w.
Proof.
  intros Hsm. destruct w as [[sm n arr mats] g c]. simpl in Hsm. subst sm.
  reflexivity.
Qed.

Lemma uniform_value_write w (sm : ShaderManager float)
    (ws : list (string * uniform float)) (name : string) :
  m_pShaderManager (this w) = Some sm ->
  uniform_value (write_uniforms ws w) name =
  match last_write name ws with
  | Some v => Some v
  | None => uniform_value w name
  end.
Proof.
  intros Hsm. unfold uniform_value. simpl. rewrite Hsm. simpl.
  apply last_write_app.
Qed.

Lemma FindTextureSlot_found_frame w tag (i : nat)
    (ws : list (string * uniform float)) :
  textures_in_bounds (this w) ->
  texture_first_at tag i (this w) ->
  FindTextureSlot tag (write_uniforms ws w) = Ok (Z.of_nat i) (write_uniforms ws w).
Proof. intros Hb Hi. apply FindTextureSlot_found_ok; assumption. Qed.

Lemma FindTextureSlot_absent_frame w tag
    (ws : list (string * uniform float)) :
  textures_in_bounds (this w) ->
  texture_absent tag (this w) ->
  FindTextureSlot tag (write_uniforms ws w) = Ok (-1) (write_uniforms ws w).
Proof. intros Hb Ha. apply FindTextureSlot_absent_ok; assumption. Qed.

(** C10: with a null [m_pShaderManager], each of [SetTransformations],
    [SetShaderColor], [SetShaderTexture] and [SetTextureUVScale] returns
    normally (no fault, so no call through the null pointer) and leaves the
    whole world as it was: no uniform is written and the registries, the
    texture counter, the OpenGL context and the console are unchanged. *)
Theorem null_shader_manager_no_op w (scaleXYZ positionXYZ : vec3 float)
    (Xrot Yrot Zrot r g b a u v : float) tag :
  m_pShaderManager (this w) = None ->
  SetTransformations scaleXYZ Xrot Yrot Zrot positionXYZ w = Ok tt w /\
  SetShaderColor r g b a w = Ok tt w /\
  SetShaderTexture tag w = Ok tt w /\
  SetTextureUVScale u v w = Ok tt w.
Proof.
  intros Hnull.
  unfold SetTransformations, SetShaderColor, SetShaderTexture, SetTextureUVScale.
  cbv zeta.
  rewrite !(bind_Ok _ _ _ _ _ (shader_not_null_None w Hnull)).
  repeat split.
Qed.

(** C3 (as the code has it): for a tag that no registered texture carries,
    [FindTextureSlot] returns the sentinel -1 and leaves the world as it
    was, and [SetShaderTexture] returns normally, never with a fault; on a
    shader manager it writes bUseTexture = 1, so texture sampling stays
    enabled, the samplers objectTexture and blendTexture = -1 and
    blendFactor = 0. *)
Theorem SetShaderTexture_absent_tag w tag :
  textures_in_bounds (this w) ->
  texture_absent tag (this w) ->
  FindTextureSlot tag w = Ok (-1) w /\
  SetShaderTexture tag w =
    Ok tt (write_uniforms
             [(g_UseTextureName, UInt 1);
              (g_TextureValueName, USampler2D (-1));
              ("blendTexture"%string, USampler2D (-1));
              ("blendFactor"%string, UFloat f_zero)] w) /\
  (forall sm w',
      m_pShaderManager (this w) = Some sm ->
      SetShaderTexture tag w = Ok tt w' ->
      uniform_value w' g_UseTextureName = Some (UInt 1) /\
      uniform_value w' g_TextureValueName = Some (USampler2D (-1))).
Proof.
  intros Hb Habs.
  assert (Hrun : SetShaderTexture tag w =
    Ok tt (write_uniforms
             [(g_UseTextureName, UInt 1);
              (g_TextureValueName, USampler2D (-1));
              ("blendTexture"%string, USampler2D (-1));
              ("blendFactor"%string, UFloat f_zero)] w)).
  { destruct (m_pShaderManager (this w)) as [sm|] eqn:Hsm.
    - apply (SetShaderTexture_ok w sm); [exact Hsm|].
      intros ws. now apply FindTextureSlot_absent_frame.
    - rewrite write_uniforms_null by exact Hsm.
      unfold SetShaderTexture.
      now rewrite (bind_Ok _ _ _ _ _ (shader_not_null_None w Hsm)). }
  split; [now apply FindTextureSlot_absent_ok|].
  split; [exact Hrun|].
  intros sm w' Hsm Hw'. rewrite Hrun in Hw'. injection Hw' as <-.
  rewrite !(uniform_value_write w sm) by exact Hsm. split; reflexivity.
Qed.

(** C9: on a shader manager, [SetShaderColor] writes bUseTexture = 0, the
    flat colour and blendFactor = 0; and [SetShaderColor] followed by
    [SetShaderTexture] with a registered tag ends with bUseTexture = 1, the
    sampler objectTexture at the tag's slot and blendFactor = 0. *)
Theorem SetShaderColor_then_SetShaderTexture w (sm : ShaderManager float)
    (r g b a : float) tag (i : nat) :
  m_pShaderManager (this w) = Some sm ->
  textures_in_bounds (this w) ->
  texture_first_at tag i (this w) ->
  SetShaderColor r g b a w =
    Ok tt (write_uniforms
             [(g_UseTextureName, UInt 0);
              (g_ColorValueName, UVec4 (Vec4 r g b a));
              ("blendFactor"%string, UFloat f_zero)] w) /\
  exists w',
    bind (SetShaderColor r g b a) (fun _ => SetShaderTexture tag) w = Ok tt w' /\
    uniform_value w' g_UseTextureName = Some (UInt 1) /\
    uniform_value w' g_TextureValueName = Some (USampler2D (Z.of_nat i)) /\
    uniform_value w' "blendFactor" = Some (UFloat f_zero) /\
    uniform_value w' g_ColorValueName = Some (UVec4 (Vec4 r g b a)).
Proof.
  intros Hsm Hb Hi.
  pose proof (SetShaderColor_ok w sm r g b a Hsm) as Hcolor.
  split; [exact Hcolor|].
  eexists. split.
  - rewrite (bind_Ok _ _ _ _ _ Hcolor).
    erewrite (SetShaderTexture_ok _ _ tag (Z.of_nat i)).
    + rewrite write_uniforms_app. reflexivity.
    + eapply write_uniforms_shader. exact Hsm.
    + intros ws. rewrite write_uniforms_app.
      now apply FindTextureSlot_found_frame.
  - rewrite !(uniform_value_write w sm) by exact Hsm.
    repeat split; reflexivity.
Qed.

(** *** The material registry *)

Lemma material_at_ok w (k : nat) (e : OBJECT_MATERIAL float) :
  m_objectMaterials (this w) !! k = Some e ->
  material_at (Z.of_nat k) w = Ok e w.
Proof.
  intros Hk. unfold material_at. run.
  destruct (Z.leb_spec 0 (Z.of_nat k)); [|lia].
  now rewrite Nat2Z.id, Hk.
Qed.

Lemma FindMaterial_while_skip (d : nat) :
  forall (fuel : nat) tag (material : OBJECT_MATERIAL float) (k : nat) w,
    (k + d <= length (m_objectMaterials (this w)))%nat ->
    (forall (j : nat) (e : OBJECT_MATERIAL float),
        (k <= j < k + d)%nat ->
        m_objectMaterials (this w) !! j = Some e -> mat_tag e <> tag) ->
    FindMaterial_while (d + fuel) tag material (Z.of_nat k) false w =
    FindMaterial_while fuel tag material (Z.of_nat (k + d)) false w.
Proof.
  induction d as [|d IH]; intros fuel tag material k w Hlen Hne.
  - now rewrite Nat.add_0_r.
  - destruct (lookup_lt_is_Some_2 (m_objectMaterials (this w)) k) as [e He];
      [lia|].
    cbn [Nat.add FindMaterial_while]. run.
    destruct (Z.ltb_spec (Z.of_nat k)
                (Z.of_nat (length (m_objectMaterials (this w))))); [|lia].
    simpl. rewrite (material_at_ok w k e He).
    rewrite compare_is_zero_false by (apply (Hne k); [lia|exact He]).
    replace (Z.of_nat k + 1) with (Z.of_nat (S k)) by lia.
    rewrite IH.
    + now replace (S k + d)%nat with (k + S d)%nat by lia.
    + lia.
    + intros j e' Hj. apply Hne. lia.
Qed.

(** The first entry that carries the tag decides the result; the entries
    behind it are never read. *)
Lemma FindMaterial_first w tag (material m : OBJECT_MATERIAL float) (i : nat) :
  m_objectMaterials (this w) !! i = Some m ->
  mat_tag m = tag ->
  (forall (j : nat) (e : OBJECT_MATERIAL float),
      (j < i)%nat -> m_objectMaterials (this w) !! j = Some e ->
      mat_tag e <> tag) ->
  FindMaterial tag material w =
  Ok (true, {| mat_diffuseColor := mat_diffuseColor m;
               mat_specularColor := mat_specularColor m;
               mat_shininess := mat_shininess m;
               mat_tag := mat_tag material |}) w.
Proof.
  intros Hm Htag Hfirst. pose proof (lookup_lt_Some _ _ _ Hm) as Hlt.
  unfold FindMaterial, bind at 1, get_this. cbn beta iota.
  destruct (Nat.eqb_spec (length (m_objectMaterials (this w))) 0); [lia|].
  replace (S (length (m_objectMaterials (this w))))
    with (i + S (S (length (m_objectMaterials (this w)) - S i)))%nat by lia.
  unfold bind at 1. change 0 with (Z.of_nat 0).
  rewrite FindMaterial_while_skip.
  - cbn [Nat.add FindMaterial_while]. run.
    destruct (Z.ltb_spec (Z.of_nat i)
                (Z.of_nat (length (m_objectMaterials (this w))))); [|lia].
    simpl. rewrite (material_at_ok w i m Hm).
    assert (Hc : compare_is_zero (mat_tag m) tag = true)
      by now apply compare_is_zero_true.
    rewrite Hc. rewrite andb_false_r. reflexivity.
  - lia.
  - intros j e' Hj. apply Hfirst. lia.
Qed.

(** On a registry that is not empty and has no entry for the tag, the loop
    runs off the end, the reference parameter is left as it came in, and
    the function still returns [true]. *)
Lemma FindMaterial_unresolved w tag (material : OBJECT_MATERIAL float) :
  m_objectMaterials (this w) <> [] ->
  (forall (j : nat) (e : OBJECT_MATERIAL float),
      m_objectMaterials (this w) !! j = Some e -> mat_tag e <> tag) ->
  FindMaterial tag material w = Ok (true, material) w.
Proof.
  intros Hne Habs.
  unfold FindMaterial, bind at 1, get_this. cbn beta iota.
  destruct (Nat.eqb_spec (length (m_objectMaterials (this w))) 0) as [E|E].
  - destruct (m_objectMaterials (this w)); [contradiction|discriminate].
  - replace (S (length (m_objectMaterials (this w))))
      with (length (m_objectMaterials (this w)) + 1)%nat by lia.
    unfold bind at 1. change 0 with (Z.of_nat 0).
    rewrite FindMaterial_while_skip.
    + simpl. run.
      destruct (Z.ltb_spec (Z.of_nat (length (m_objectMaterials (this w))))
                  (Z.of_nat (length (m_objectMaterials (this w))))); [lia|].
      reflexivity.
    + lia.
    + intros j e _. apply Habs.
Qed.

Lemma FindMaterial_empty w tag (material : OBJECT_MATERIAL float) :
  m_objectMaterials (this w) = [] ->
  FindMaterial tag material w = Ok (false, material) w.
Proof.
  intros Hempty. unfold FindMaterial, bind at 1, get_this. cbn beta iota.
  now rewrite Hempty.
Qed.

(** C4: when two entries of the registry carry the same tag, and the
    earlier one is the first entry with that tag, [FindMaterial] returns the
    colours and shininess of the earlier entry; so whenever the later entry
    has other values, they are not what the lookup returns. *)
Theorem FindMaterial_first_match w tag (material m1 m2 : OBJECT_MATERIAL float)
    (i j : nat) :
  (i < j)%nat ->
  m_objectMaterials (this w) !! i = Some m1 ->
  m_objectMaterials (this w) !! j = Some m2 ->
  mat_tag m1 = tag ->
  mat_tag m2 = tag ->
  (forall (k : nat) (e : OBJECT_MATERIAL float),
      (k < i)%nat -> m_objectMaterials (this w) !! k = Some e ->
      mat_tag e <> tag) ->
  exists found,
    FindMaterial tag material w = Ok (true, found) w /\
    mat_diffuseColor found = mat_diffuseColor m1 /\
    mat_specularColor found = mat_specularColor m1 /\
    mat_shininess found = mat_shininess m1 /\
    ((mat_diffuseColor m2, mat_specularColor m2, mat_shininess m2) <>
     (mat_diffuseColor m1, mat_specularColor m1, mat_shininess m1) ->
     (mat_diffuseColor found, mat_specularColor found, mat_shininess found) <>
     (mat_diffuseColor m2, mat_specularColor m2, mat_shininess m2)).
Proof.
  intros Hij H1 H2 Ht1 Ht2 Hfirst.
  eexists. split; [apply (FindMaterial_first w tag material m1 i); assumption|].
  simpl. repeat split. intros Hdiff Heq. apply Hdiff. now symmetry.
Qed.

Lemma SetShaderMaterial_empty w tag :
  m_objectMaterials (this w) = [] ->
  SetShaderMaterial uninitialized_material tag w = Ok tt w.
Proof.
  intros Hempty. unfold SetShaderMaterial, bind at 1, get_this. cbn beta iota.
  now rewrite Hempty.
Qed.

(** On a registry that is not empty, a tag that no entry carries does not
    stop [SetShaderMaterial]: [FindMaterial] returned [true], so the three
    material uniforms are written from the local that was never assigned. *)
Lemma SetShaderMaterial_unresolved w (sm : ShaderManager float) tag :
  m_pShaderManager (this w) = Some sm ->
  m_objectMaterials (this w) <> [] ->
  (forall (j : nat) (e : OBJECT_MATERIAL float),
      m_objectMaterials (this w) !! j = Some e -> mat_tag e <> tag) ->
  SetShaderMaterial uninitialized_material tag w =
  Ok tt (write_uniforms
           [("material.diffuseColor"%string,
             UVec3 (mat_diffuseColor uninitialized_material));
            ("material.specularColor"%string,
             UVec3 (mat_specularColor uninitialized_material));
            ("material.shininess"%string,
             UFloat (mat_shininess uninitialized_material))] w).
Proof.
  intros Hsm Hne Habs.
  unfold SetShaderMaterial, bind at 1, get_this. cbn beta iota.
  destruct (Nat.ltb_spec 0 (length (m_objectMaterials (this w)))) as [E|E].
  - cbv zeta.
    rewrite (bind_Ok _ _ _ _ _
               (FindMaterial_unresolved w tag uninitialized_material Hne Habs)).
    cbn [fst snd]. unfold setVec3Value, setFloatValue.
    shader_step Hsm. shader_step Hsm.
    erewrite shader_set_ok by (eapply write_uniforms_shader; exact Hsm).
    now rewrite write_uniforms_app.
  - destruct (m_objectMaterials (this w)); [contradiction|simpl in E; lia].
Qed.

(** *** The texture registry *)

(** C7: when the file decodes to an image whose channel count is neither 3
    nor 4, [CreateGLTexture] returns [false] and the scene manager is what
    it was: the texture counter and the texture array are unchanged, and a
    tag that no texture carried is still answered with -1 by
    [FindTextureSlot]. *)
Theorem CreateGLTexture_unsupported_channels w (filename : string) tag
    (image : Image) :
  stbi_load filename = Some image ->
  img_channels image <> 3 ->
  img_channels image <> 4 ->
  exists w',
    CreateGLTexture stbi_load filename tag w = Ok false w' /\
    this w' = this w /\
    m_loadedTextures (this w') = m_loadedTextures (this w) /\
    m_textureIDs (this w') = m_textureIDs (this w) /\
    cout w' = cout w ++ [SuccessfullyLoaded filename (img_width image)
                           (img_height image) (img_channels image);
                         NotImplementedChannels (img_channels image)] /\
    (forall tag',
        textures_in_bounds (this w) -> texture_absent tag' (this w) ->
        FindTextureSlot tag' w' = Ok (-1) w').
Proof.
  intros Hload H3 H4. unfold CreateGLTexture. rewrite Hload.
  unfold upload_image.
  destruct (Z.eqb_spec (img_channels image) 3); [contradiction|].
  destruct (Z.eqb_spec (img_channels image) 4); [contradiction|].
  unfold bind, ret, print, gl_call, glGenTextures. fields.
  eexists. split; [reflexivity|]. fields.
  split; [reflexivity|]. split; [reflexivity|]. split; [reflexivity|].
  split; [now rewrite <- app_assoc|].
  intros tag' Hb Habs. now apply FindTextureSlot_absent_ok.
Qed.

(** What a call that returned [true] did to the scene manager. *)
Lemma CreateGLTexture_true w (filename : string) tag (w' : World float) :
  CreateGLTexture stbi_load filename tag w = Ok true w' ->
  exists (n : nat) (e : TEXTURE_INFO) (name : Z),
    m_loadedTextures (this w) = Z.of_nat n /\
    m_textureIDs (this w) !! n = Some e /\
    m_loadedTextures (this w') = Z.of_nat (S n) /\
    m_textureIDs (this w') =
      <[n := {| tex_ID := name; tex_tag := tag |}]> (m_textureIDs (this w)) /\
    m_objectMaterials (this w') = m_objectMaterials (this w) /\
    m_pShaderManager (this w') = m_pShaderManager (this w).
Proof.
  unfold CreateGLTexture, upload_image.
  destruct (stbi_load filename) as [image|]; [|discriminate].
  unfold texture_update, texture_at, increment_loadedTextures.
  unfold bind, ret, raise, get_this, put_this, print, gl_call, glGenTextures.
  fields.
  destruct (img_channels image =? 3); [|destruct (img_channels image =? 4)];
    fields; try discriminate.
  all: destruct (Z.leb_spec 0 (m_loadedTextures (this w))) as [Hn|Hn];
    [|discriminate].
  all: destruct (m_textureIDs (this w) !! Z.to_nat (m_loadedTextures (this w)))
    as [e|] eqn:He; [|discriminate].
  all: fields.
  all: rewrite list_lookup_insert_eq by (eapply lookup_lt_Some; exact He).
  all: fields.
  all: destruct (m_loadedTextures (this w) <? INT_MAX); [|discriminate].
  all: intros Hw'; injection Hw' as <-; fields.
  all: exists (Z.to_nat (m_loadedTextures (this w))), e,
         (gl_fresh_name (glTextureNames (gl w))).
  all: repeat split; [lia|exact He|lia|].
  all: now rewrite list_insert_insert_eq.
Qed.

(** A call on a decodable three- or four-channel image with a free slot
    returns [true]. *)
Lemma CreateGLTexture_succeeds w (filename : string) tag :
  decodes_supported stbi_load filename ->
  0 <= m_loadedTextures (this w) < Z.of_nat (length (m_textureIDs (this w))) ->
  m_loadedTextures (this w) < INT_MAX ->
  exists w', CreateGLTexture stbi_load filename tag w = Ok true w'.
Proof.
  intros (image & Hload & Hch) Hn Hmax.
  destruct (lookup_lt_is_Some_2 (m_textureIDs (this w))
              (Z.to_nat (m_loadedTextures (this w)))) as [e He]; [lia|].
  unfold CreateGLTexture, upload_image. rewrite Hload.
  unfold texture_update, texture_at, increment_loadedTextures.
  unfold bind, ret, raise, get_this, put_this, print, gl_call, glGenTextures.
  fields.
  assert (Hup : (img_channels image =? 3) = true \/
                ((img_channels image =? 3) = false /\
                 (img_channels image =? 4) = true)).
  { destruct Hch as [-> | ->]; [left|right]; auto. }
  destruct Hup as [-> | [-> ->]]; fields.
  all: destruct (Z.leb_spec 0 (m_loadedTextures (this w))); [|lia].
  all: rewrite He; fields.
  all: rewrite list_lookup_insert_eq by (eapply lookup_lt_Some; exact He).
  all: fields.
  all: destruct (Z.ltb_spec (m_loadedTextures (this w)) INT_MAX); [|lia].
  all: eexists; reflexivity.
Qed.

Lemma registry_tags_load w (filename : string) tag (tags : list string)
    (w' : World float) :
  registry_tags tags (this w) ->
  CreateGLTexture stbi_load filename tag w = Ok true w' ->
  registry_tags (tags ++ [tag]) (this w').
Proof.
  intros (Hcount & Hlen & Htags) Hload.
  destruct (CreateGLTexture_true w filename tag w' Hload)
    as (n & e & name & Hn & He & Hn' & Harr & _ & _).
  assert (n = length tags) as -> by lia.
  pose proof (lookup_lt_Some _ _ _ He) as Hlt.
  unfold registry_tags. rewrite Hn', Harr, length_insert, length_app. simpl.
  split; [lia|]. split; [lia|].
  intros i t Hi. apply lookup_snoc_Some in Hi as [[Hi Ht] | [-> <-]].
  - destruct (Htags i t Ht) as (e' & He' & Htag).
    exists e'. split; [|exact Htag].
    rewrite list_lookup_insert_ne by lia. exact He'.
  - eexists. split; [apply list_lookup_insert_eq; exact Hlt|reflexivity].
Qed.

Lemma registry_tags_all (loads : list (string * string)) :
  forall (tags : list string) w (results : list bool) (w' : World float),
    registry_tags tags (this w) ->
    CreateGLTexture_all stbi_load loads w = Ok results w' ->
    Forall (eq true) results ->
    registry_tags (tags ++ loads.*2) (this w').
Proof.
  induction loads as [|[filename tag] loads IH];
    intros tags w results w' Hinv Hrun Hall.
  - injection Hrun as <- <-. now rewrite app_nil_r.
  - cbn [CreateGLTexture_all] in Hrun. unfold bind at 1 in Hrun.
    destruct (CreateGLTexture stbi_load filename tag w) as [b w1|] eqn:H1;
      [|discriminate].
    unfold bind at 1 in Hrun.
    destruct (CreateGLTexture_all stbi_load loads w1) as [bs w2|] eqn:H2;
      [|discriminate].
    injection Hrun as <- <-.
    apply Forall_cons in Hall as [<- Hall].
    cbn [fmap list_fmap fst snd]. rewrite (cons_middle tag), app_assoc.
    apply (IH _ w1 bs); [|exact H2|exact Hall].
    now apply (registry_tags_load w filename).
Qed.

Lemma registry_tags_find w (tags : list string) (i : nat) tag :
  registry_tags tags (this w) ->
  NoDup tags ->
  tags !! i = Some tag ->
  FindTextureSlot tag w = Ok (Z.of_nat i) w.
Proof.
  intros (Hcount & Hlen & Htags) Hnodup Hi.
  pose proof (lookup_lt_Some _ _ _ Hi) as Hlt.
  apply FindTextureSlot_found_ok.
  - unfold textures_in_bounds. lia.
  - split; [lia|]. split; [now apply Htags|].
    intros j e Hj He Heq.
    destruct (lookup_lt_is_Some_2 tags j) as [t Ht]; [lia|].
    destruct (Htags j t Ht) as (e' & He' & Htag).
    assert (e' = e) as -> by congruence.
    assert (j = i); [|lia].
    apply (NoDup_lookup tags j i tag); congruence.
Qed.

(** C8: after a run of [CreateGLTexture] calls on a fresh registry that all
    returned [true], with pairwise distinct tags, the counter is the number
    N of calls, and [FindTextureSlot] on the tag of the i-th call returns i:
    a slot in [0, N), its registration position, so distinct tags have
    distinct slots. *)
Theorem loaded_textures_slots w (loads : list (string * string))
    (results : list bool) (w' : World float) :
  m_loadedTextures (this w) = 0 ->
  NoDup (loads.*2) ->
  CreateGLTexture_all stbi_load loads w = Ok results w' ->
  Forall (eq true) results ->
  m_loadedTextures (this w') = Z.of_nat (length loads) /\
  (forall (i : nat) tag,
      loads.*2 !! i = Some tag ->
      FindTextureSlot tag w' = Ok (Z.of_nat i) w' /\
      0 <= Z.of_nat i < Z.of_nat (length loads)) /\
  (forall (i j : nat) (tag1 tag2 : string) (slot1 slot2 : Z),
      loads.*2 !! i = Some tag1 -> loads.*2 !! j = Some tag2 ->
      FindTextureSlot tag1 w' = Ok slot1 w' ->
      FindTextureSlot tag2 w' = Ok slot2 w' ->
      i <> j -> slot1 <> slot2).
Proof.
  intros H0 Hnodup Hrun Hall.
  assert (Hinv : registry_tags (loads.*2) (this w')).
  { apply (registry_tags_all loads [] w results w'); [|exact Hrun|exact Hall].
    unfold registry_tags. simpl. split; [exact H0|]. split; [lia|].
    intros i t Hi. discriminate. }
  assert (Hslot : forall (i : nat) tag,
             loads.*2 !! i = Some tag ->
             FindTextureSlot tag w' = Ok (Z.of_nat i) w')
    by (intros i tag Hi; now apply (registry_tags_find w' (loads.*2))).
  split; [|split].
  - destruct Hinv as (Hcount & _). now rewrite Hcount, length_fmap.
  - intros i tag Hi. split; [now apply Hslot|].
    apply lookup_lt_Some in Hi. rewrite length_fmap in Hi. lia.
  - intros i j tag1 tag2 slot1 slot2 Hi Hj H1 H2 Hij.
    rewrite (Hslot i tag1 Hi) in H1. rewrite (Hslot j tag2 Hj) in H2.
    injection H1 as <-. injection H2 as <-. lia.
Qed.

(** The loads of such a run do return [true] while the array has room. *)
Lemma CreateGLTexture_all_succeeds (loads : list (string * string)) :
  forall w (n : nat),
    m_loadedTextures (this w) = Z.of_nat n ->
    (n + length loads <= length (m_textureIDs (this w)))%nat ->
    Z.of_nat (length (m_textureIDs (this w))) <= INT_MAX ->
    Forall (decodes_supported stbi_load) (loads.*1) ->
    exists w',
      CreateGLTexture_all stbi_load loads w
      = Ok (replicate (length loads) true) w'.
Proof.
  induction loads as [|[filename tag] loads IH]; intros w n Hn Hroom Hmax Hdec.
  - eexists. reflexivity.
  - cbn [fmap list_fmap fst] in Hdec. apply Forall_cons in Hdec as [Hd Hdec].
    simpl in Hroom.
    destruct (CreateGLTexture_succeeds w filename tag Hd) as [w1 H1]; [lia|lia|].
    destruct (CreateGLTexture_true w filename tag w1 H1)
      as (n' & e & name & Hn' & He & Hn1 & Harr & _ & _).
    assert (n' = n) as -> by lia.
    destruct (IH w1 (S n)) as [w2 H2].
    + exact Hn1.
    + rewrite Harr, length_insert. lia.
    + rewrite Harr, length_insert. exact Hmax.
    + exact Hdec.
    + exists w2. cbn [CreateGLTexture_all length replicate].
      unfold bind at 1. rewrite H1. unfold bind at 1. now rewrite H2.
Qed.

(** [DestroyGLTextures] never takes a texture name out of use, whatever
    the world: the names in use before the call are still in use after. *)
Lemma for_loadedTextures_names (body : Z -> M float unit) :
  (forall (i : Z) w (w1 : World float),
      body i w = Ok tt w1 ->
      glTextureNames (gl w) `prefix_of` glTextureNames (gl w1)) ->
  forall (fuel : nat) (i : Z) w (w' : World float),
    for_loadedTextures fuel i body w = Ok tt w' ->
    glTextureNames (gl w) `prefix_of` glTextureNames (gl w').
Proof.
  intros Hbody. induction fuel as [|fuel IH]; intros i w w' Hrun.
  - discriminate Hrun.
  - cbn [for_loadedTextures] in Hrun. unfold bind at 1, get_this in Hrun.
    destruct (i <? m_loadedTextures (this w)).
    + unfold bind at 1 in Hrun.
      destruct (body i w) as [[] w1|] eqn:Hb; [|discriminate].
      etrans; [exact (Hbody i w w1 Hb)|exact (IH _ _ _ Hrun)].
    + unfold ret in Hrun. injection Hrun as <-. reflexivity.
Qed.

Lemma DestroyGLTextures_keeps_names w (w' : World float) :
  DestroyGLTextures w = Ok tt w' ->
  glTextureNames (gl w) `prefix_of` glTextureNames (gl w').
Proof.
  unfold DestroyGLTextures, bind at 1, get_this.
  apply for_loadedTextures_names. clear w w'. intros i w w1.
  unfold texture_update, texture_at, glGenTextures.
  unfold bind, ret, raise, get_this, put_this. fields.
  destruct (0 <=? i); [|discriminate].
  destruct (m_textureIDs (this w) !! Z.to_nat i) eqn:He; [|discriminate].
  fields. rewrite He. intros Hw1. injection Hw1 as <-. fields.
  now apply prefix_app_r.
Qed.

(** *** The transform composer *)

Lemma SetTransformations_model_matrix_aux w (sm : ShaderManager float)
    (scaleXYZ positionXYZ : vec3 float) (Xrot Yrot Zrot : float) :
  m_pShaderManager (this w) = Some sm ->
  SetTransformations scaleXYZ Xrot Yrot Zrot positionXYZ w =
  Ok tt (write_uniforms
           [(g_ModelName,
             UMat4 (compose_spec scaleXYZ (Vec3 Xrot Yrot Zrot) positionXYZ))]
           w).
Proof.
  intros Hsm. unfold SetTransformations. cbv zeta.
  rewrite (bind_Ok _ _ _ _ _ (shader_not_null_Some w sm Hsm)).
  unfold setMat4Value. now erewrite shader_set_ok by exact Hsm.
Qed.

Section Neutral.
Context `{!NeutralArithmetic float}.

Ltac neutral_arithmetic :=
  cbn [v3_x v3_y v3_z v4_x v4_y v4_z v4_w col0 col1 col2 col3];
  repeat (progress (rewrite ?radians_zero, ?cos_zero, ?sin_zero,
                      ?mul_one_one, ?mul_zero_zero, ?mul_zero_one,
                      ?mul_one_zero, ?add_one_zero, ?add_zero_one,
                      ?add_zero_zero, ?sub_one_one, ?sub_zero_zero,
                      ?inversesqrt_one));
  try reflexivity.

Lemma glm_scale_ones :
  glm_scale (Vec3 f_one f_one f_one) = mat4_identity (float := float).
Proof.
  unfold glm_scale, glm_scale_m, mat4_identity, mat4_diag, vec4_muls.
  neutral_arithmetic.
Qed.

Lemma glm_translate_zeros :
  glm_translate (Vec3 f_zero f_zero f_zero) = mat4_identity (float := float).
Proof.
  unfold glm_translate, glm_translate_m, mat4_identity, mat4_diag, vec4_muls,
    vec4_add.
  neutral_arithmetic.
Qed.

Lemma glm_rotate_zero_X :
  glm_rotate (glm_radians f_zero) (Vec3 f_one f_zero f_zero)
  = mat4_identity (float := float).
Proof.
  unfold glm_rotate, glm_rotate_m, glm_radians, glm_normalize, glm_dot,
    mat4_identity, mat4_diag, vec3_muls, vec3_smul, vec4_muls, vec4_add.
  neutral_arithmetic.
Qed.

Lemma glm_rotate_zero_Y :
  glm_rotate (glm_radians f_zero) (Vec3 f_zero f_one f_zero)
  = mat4_identity (float := float).
Proof.
  unfold glm_rotate, glm_rotate_m, glm_radians, glm_normalize, glm_dot,
    mat4_identity, mat4_diag, vec3_muls, vec3_smul, vec4_muls, vec4_add.
  neutral_arithmetic.
Qed.

Lemma glm_rotate_zero_Z :
  glm_rotate (glm_radians f_zero) (Vec3 f_zero f_zero f_one)
  = mat4_identity (float := float).
Proof.
  unfold glm_rotate, glm_rotate_m, glm_radians, glm_normalize, glm_dot,
    mat4_identity, mat4_diag, vec3_muls, vec3_smul, vec4_muls, vec4_add.
  neutral_arithmetic.
Qed.

Lemma mat4_mul_identity_identity :
  mat4_mul mat4_identity mat4_identity = mat4_identity (float := float).
Proof.
  unfold mat4_mul, mat4_mul_col, mat4_identity, mat4_diag, vec4_muls, vec4_add.
  neutral_arithmetic.
Qed.

Lemma compose_spec_neutral :
  compose_spec (Vec3 f_one f_one f_one) (Vec3 f_zero f_zero f_zero)
               (Vec3 f_zero f_zero f_zero)
  = mat4_identity.
Proof.
  unfold compose_spec. cbv zeta. cbn [v3_x v3_y v3_z].
  rewrite glm_scale_ones, glm_translate_zeros, glm_rotate_zero_X,
    glm_rotate_zero_Y, glm_rotate_zero_Z.
  now rewrite !mat4_mul_identity_identity.
Qed.

(** C6: the neutral transform, scale (1,1,1), rotation (0,0,0) degrees and
    translation (0,0,0), makes [SetTransformations] write the 4x4 identity
    matrix as the model matrix. *)
Theorem SetTransformations_neutral w (sm : ShaderManager float) :
  m_pShaderManager (this w) = Some sm ->
  SetTransformations (Vec3 f_one f_one f_one) f_zero f_zero f_zero
                     (Vec3 f_zero f_zero f_zero) w =
  Ok tt (write_uniforms [(g_ModelName, UMat4 mat4_identity)] w).
Proof.
  intros Hsm. rewrite (SetTransformations_model_matrix_aux w sm); [|exact Hsm].
  now rewrite compose_spec_neutral.
Qed.

End Neutral.

End Properties.

(** ** The statements on concrete scenes *)

#[export] Instance NeutralArithmetic_R : NeutralArithmetic R.
Proof.
  split; simpl; try lra.
  - apply cos_0.
  - apply sin_0.
  - rewrite sqrt_1. lra.
Qed.

Lemma scene_world_in_bounds (shader : option (ShaderManager R)) :
  textures_in_bounds (this (scene_world shader)).
Proof. unfold textures_in_bounds. simpl. lia. Qed.

Lemma scene_world_missing_absent (shader : option (ShaderManager R)) :
  texture_absent "missing" (this (scene_world shader)).
Proof.
  intros j e Hj He. simpl in Hj, He.
  do 6 (destruct j as [|j]; [injection He as <-; discriminate|]).
  lia.
Qed.

Lemma scene_world_blade_first (shader : option (ShaderManager R)) :
  texture_first_at "blade" 2 (this (scene_world shader)).
Proof.
  split; [simpl; lia|]. split; [eexists; split; reflexivity|].
  intros j e Hj He. simpl in He.
  do 2 (destruct j as [|j]; [injection He as <-; discriminate|]).
  lia.
Qed.

Lemma null_shader_manager_no_op_witness :
  m_pShaderManager (this (scene_world None)) = None /\
  SetTransformations (Vec3 2 1 1)%R 0%R 90%R 0%R (Vec3 0 3 0)%R (scene_world None)
    = Ok tt (scene_world None) /\
  SetShaderColor 1%R 0%R 0%R 1%R (scene_world None) = Ok tt (scene_world None) /\
  SetShaderTexture "blade" (scene_world None) = Ok tt (scene_world None) /\
  SetTextureUVScale 2%R 2%R (scene_world None) = Ok tt (scene_world None).
Proof.
  split; [reflexivity|].
  apply (null_shader_manager_no_op (scene_world None)). reflexivity.
Defined.

Lemma SetShaderTexture_absent_tag_witness :
  FindTextureSlot "missing" (scene_world (Some no_writes))
    = Ok (-1) (scene_world (Some no_writes)) /\
  SetShaderTexture "missing" (scene_world (Some no_writes))
    = Ok tt (write_uniforms
               [(g_UseTextureName, UInt 1);
                (g_TextureValueName, USampler2D (-1));
                ("blendTexture"%string, USampler2D (-1));
                ("blendFactor"%string, UFloat 0%R)]
               (scene_world (Some no_writes))).
Proof.
  pose proof (SetShaderTexture_absent_tag (scene_world (Some no_writes))
                "missing" (scene_world_in_bounds _)
                (scene_world_missing_absent _)) as (Hfind & Hset & _).
  split; [exact Hfind|exact Hset].
Defined.

(** The tag "missing" is carried by none of the six textures, and after
    [SetShaderTexture "missing"] the uniform bUseTexture is 1, not 0:
    texture sampling is enabled, not disabled. *)
Lemma SetShaderTexture_absent_tag_enables_sampling :
  texture_absent "missing" (this (scene_world (Some no_writes))) /\
  exists w',
    SetShaderTexture "missing" (scene_world (Some no_writes)) = Ok tt w' /\
    uniform_value w' g_UseTextureName = Some (UInt 1) /\
    uniform_value w' g_UseTextureName <> Some (UInt 0).
Proof.
  split; [apply scene_world_missing_absent|].
  eexists. split; [reflexivity|]. split; [reflexivity|].
  intros Heq. discriminate Heq.
Qed.

Lemma SetShaderColor_then_SetShaderTexture_witness :
  exists w',
    bind (SetShaderColor 1%R 0%R 0%R 1%R) (fun _ => SetShaderTexture "blade")
      (scene_world (Some no_writes)) = Ok tt w' /\
    uniform_value w' g_UseTextureName = Some (UInt 1) /\
    uniform_value w' g_TextureValueName = Some (USampler2D 2) /\
    uniform_value w' "blendFactor" = Some (UFloat 0%R) /\
    uniform_value w' g_ColorValueName = Some (UVec4 (Vec4 1 0 0 1)%R).
Proof.
  exact (proj2 (SetShaderColor_then_SetShaderTexture
                  (scene_world (Some no_writes)) no_writes 1%R 0%R 0%R 1%R
                  "blade" 2 eq_refl (scene_world_in_bounds _)
                  (scene_world_blade_first _))).
Defined.

Lemma FindMaterial_first_match_witness :
  exists found,
    FindMaterial "plastic" redefined_plastic redefined_world
      = Ok (true, found) redefined_world /\
    mat_diffuseColor found = (Vec3 5 5 5)%R /\
    mat_specularColor found = (Vec3 5 5 5)%R /\
    mat_shininess found = 30%R.
Proof.
  destruct (FindMaterial_first_match redefined_world "plastic"
              redefined_plastic
              {| mat_diffuseColor := Vec3 5 5 5;
                 mat_specularColor := Vec3 5 5 5;
                 mat_shininess := 30; mat_tag := "plastic" |}%R
              redefined_plastic 0 5)
    as (found & Hfind & Hd & Hs & Hsh & _).
  - lia.
  - reflexivity.
  - reflexivity.
  - reflexivity.
  - reflexivity.
  - intros k e Hk. lia.
  - exists found. repeat split; assumption.
Defined.

Lemma CreateGLTexture_unsupported_channels_witness :
  exists w',
    CreateGLTexture scene_files "textures/gray.png" "gray"
      (scene_world (Some no_writes)) = Ok false w' /\
    this w' = this (scene_world (Some no_writes)) /\
    FindTextureSlot "gray" w' = Ok (-1) w'.
Proof.
  destruct (CreateGLTexture_unsupported_channels scene_files
              (scene_world (Some no_writes)) "textures/gray.png" "gray"
              {| img_width := 512; img_height := 512; img_channels := 1 |})
    as (w' & Hrun & Hthis & _ & _ & _ & Hfind).
  - reflexivity.
  - simpl. lia.
  - simpl. lia.
  - exists w'. split; [exact Hrun|]. split; [exact Hthis|].
    apply Hfind; [apply scene_world_in_bounds|].
    intros j e Hj He. simpl in Hj, He.
    do 6 (destruct j as [|j]; [injection He as <-; discriminate|]).
    lia.
Defined.

Lemma loaded_textures_slots_witness :
  m_loadedTextures (this loaded_world) = 6 /\
  FindTextureSlot "blackPlastic" loaded_world = Ok 0 loaded_world /\
  FindTextureSlot "wall" loaded_world = Ok 3 loaded_world /\
  FindTextureSlot "gpu" loaded_world = Ok 5 loaded_world.
Proof.
  destruct (loaded_textures_slots scene_files (new_world None) scene_textures
              (replicate 6 true) loaded_world)
    as (Hcount & Hslots & _).
  - reflexivity.
  - apply (bool_decide_unpack _). vm_compute. exact I.
  - vm_compute. reflexivity.
  - repeat constructor.
  - split; [exact Hcount|].
    split; [exact (proj1 (Hslots 0%nat "blackPlastic"%string eq_refl))|].
    split; [exact (proj1 (Hslots 3%nat "wall"%string eq_refl))|].
    exact (proj1 (Hslots 5%nat "gpu"%string eq_refl)).
Defined.

Lemma SetTransformations_neutral_witness :
  SetTransformations (float := R) (Vec3 f_one f_one f_one) f_zero f_zero f_zero
    (Vec3 f_zero f_zero f_zero) (scene_world (Some no_writes)) =
  Ok tt (write_uniforms [(g_ModelName, UMat4 mat4_identity)]
           (scene_world (Some no_writes))).
Proof.
  apply (SetTransformations_neutral (scene_world (Some no_writes)) no_writes).
  reflexivity.
Defined.

(** C1, where the code departs from it: the registry holds the five scene
    materials, none tagged "metal"; [SetShaderMaterial "metal"] still writes
    the three material uniforms, with whatever its uninitialised local
    holds, so the world after the call is not the world before it. *)
Theorem SetShaderMaterial_unresolved_tag_writes (garbage : OBJECT_MATERIAL R) :
  (forall (j : nat) (e : OBJECT_MATERIAL R),
      scene_materials !! j = Some e -> mat_tag e <> "metal"%string) /\
  SetShaderMaterial garbage "metal" (scene_world (Some no_writes)) =
    Ok tt (write_uniforms
             [("material.diffuseColor"%string, UVec3 (mat_diffuseColor garbage));
              ("material.specularColor"%string, UVec3 (mat_specularColor garbage));
              ("material.shininess"%string, UFloat (mat_shininess garbage))]
             (scene_world (Some no_writes))) /\
  SetShaderMaterial garbage "metal" (scene_world (Some no_writes)) <>
    Ok tt (scene_world (Some no_writes)).
Proof.
  assert (Habs : forall (j : nat) (e : OBJECT_MATERIAL R),
             scene_materials !! j = Some e -> mat_tag e <> "metal"%string).
  { intros j e He.
    do 5 (destruct j as [|j]; [injection He as <-; discriminate|]).
    discriminate He. }
  assert (Hrun := SetShaderMaterial_unresolved garbage
                    (scene_world (Some no_writes)) no_writes "metal"
                    eq_refl ltac:(discriminate) Habs).
  split; [exact Habs|]. split; [exact Hrun|].
  rewrite Hrun. intros Heq. injection Heq as Heq. discriminate Heq.
Qed.

(** C2, where the code departs from it: on the world with the six scene
    textures loaded, [DestroyGLTextures] deletes no texture name: the six
    names stay in use and six more are generated, which replace the IDs in
    the registry; the counter stays at 6, and a second call generates six
    names again. *)
Theorem DestroyGLTextures_generates_names :
  exists w1 w2 : World R,
    glTextureNames (gl loaded_world) = [1; 2; 3; 4; 5; 6] /\
    DestroyGLTextures loaded_world = Ok tt w1 /\
    glTextureNames (gl w1) = [1; 2; 3; 4; 5; 6; 7; 8; 9; 10; 11; 12] /\
    glTrace (gl w1) =
      glTrace (gl loaded_world) ++
      [GenTextures 7; GenTextures 8; GenTextures 9;
       GenTextures 10; GenTextures 11; GenTextures 12] /\
    tex_ID <$> take 6 (m_textureIDs (this w1)) = [7; 8; 9; 10; 11; 12] /\
    m_loadedTextures (this w1) = 6 /\
    DestroyGLTextures w1 = Ok tt w2 /\
    glTextureNames (gl w2) =
      [1; 2; 3; 4; 5; 6; 7; 8; 9; 10; 11; 12; 13; 14; 15; 16; 17; 18] /\
    w2 <> w1.
Proof.
  eexists _, _.
  split; [reflexivity|].
  split; [vm_compute; reflexivity|].
  split; [reflexivity|]. split; [reflexivity|]. split; [reflexivity|].
  split; [reflexivity|].
  split; [vm_compute; reflexivity|].
  split; [reflexivity|].
  intros Heq. discriminate Heq.
Qed.

(** In exact arithmetic the product acts on a point as its factors do one
    after the other, scale first and translation last: the rotations are
    applied about X, then Y, then Z. *)
Lemma mat4_mul_col_assoc (a b : mat4 R) (v : vec4 R) :
  mat4_mul_col (mat4_mul a b) v = mat4_mul_col a (mat4_mul_col b v).
Proof.
  destruct a as [[a00 a01 a02 a03] [a10 a11 a12 a13]
                 [a20 a21 a22 a23] [a30 a31 a32 a33]].
  destruct b as [[b00 b01 b02 b03] [b10 b11 b12 b13]
                 [b20 b21 b22 b23] [b30 b31 b32 b33]].
  destruct v as [x y z t].
  cbv [mat4_mul mat4_mul_col vec4_add vec4_muls f_add f_mul Scalar_R
       v4_x v4_y v4_z v4_w col0 col1 col2 col3].
  f_equal; ring.
Qed.

Lemma compose_spec_applies_in_order (scale rotationDegrees translation : vec3 R)
    (v : vec4 R) :
  mat4_mul_col (compose_spec scale rotationDegrees translation) v =
  mat4_mul_col (glm_translate translation)
    (mat4_mul_col
       (glm_rotate (glm_radians (v3_z rotationDegrees)) (Vec3 f_zero f_zero f_one))
       (mat4_mul_col
          (glm_rotate (glm_radians (v3_y rotationDegrees)) (Vec3 f_zero f_one f_zero))
          (mat4_mul_col
             (glm_rotate (glm_radians (v3_x rotationDegrees)) (Vec3 f_one f_zero f_zero))
             (mat4_mul_col (glm_scale scale) v)))).
Proof.
  unfold compose_spec. cbv zeta. now rewrite !mat4_mul_col_assoc.
Qed.

(** ** Further properties *)

Section FurtherProperties.
#[local] Set Default Proof Using "Type".
Context {float : Type} `{Scalar float}.
Variable stbi_load : string -> option Image.
Variable uninitialized_material : OBJECT_MATERIAL float.
Variable float_literal : Z -> Z -> float.

Implicit Types (w : World float) (s : SceneManager float) (tag : string).

Ltac fields :=
  cbn [this gl cout m_loadedTextures m_textureIDs m_objectMaterials
       m_pShaderManager glTextureNames glTrace].

(** Keeps a proof to the section variables of its statement. *)
Ltac own_variables :=
  try clear stbi_load; try clear uninitialized_material;
  try clear float_literal.

(** *** Texture lookups *)

Lemma texture_absent_or_first s tag :
  texture_absent tag s \/ exists i, texture_first_at tag i s.
Proof.
  own_variables.
  assert (Hn : forall n : nat,
    (forall (j : nat) (e : TEXTURE_INFO),
        (j < n)%nat -> Z.of_nat j < m_loadedTextures s ->
        m_textureIDs s !! j = Some e -> tex_tag e <> tag) \/
    exists i, texture_first_at tag i s).
  { induction n as [|n [IH|IH]]; [left; intros; lia| |right; exact IH].
    destruct (m_textureIDs s !! n) as [e|] eqn:He.
    - destruct (decide (Z.of_nat n < m_loadedTextures s /\ tex_tag e = tag))
        as [[Hlt Ht]|Hno].
      + right. exists n. split; [exact Hlt|]. split; [now exists e|].
        intros j e' Hj He'. apply (IH j e' Hj); [lia|exact He'].
      + left. intros j e' Hj Hlt He'.
        destruct (decide (j = n)) as [->|Hne].
        * assert (e' = e) as -> by congruence. tauto.
        * apply (IH j e'); [lia|exact Hlt|exact He'].
    - left. intros j e' Hj Hlt He'.
      destruct (decide (j = n)) as [->|Hne]; [congruence|].
      apply (IH j e'); [lia|exact Hlt|exact He']. }
  destruct (Hn (length (m_textureIDs s))) as [Habs|Hfirst]; [left|now right].
  intros j e Hlt He. apply (Habs j e); [|exact Hlt|exact He].
  now apply lookup_lt_Some in He.
Qed.

(** X1: on a registry whose counter is within the array, [FindTextureSlot]
    always returns, leaves the world as it was, and its result is either
    -1, when no texture in use carries the tag, or the index of the first
    texture in use that carries it, an index below [m_loadedTextures]. *)
Theorem FindTextureSlot_first_or_sentinel w tag :
  textures_in_bounds (this w) ->
  exists r,
    FindTextureSlot tag w = Ok r w /\
    ((r = -1 /\ texture_absent tag (this w)) \/
     (exists i : nat,
         r = Z.of_nat i /\ 0 <= r < m_loadedTextures (this w) /\
         texture_first_at tag i (this w))).
Proof.
  intros Hb. destruct (texture_absent_or_first (this w) tag) as [Habs|[i Hi]].
  - exists (-1). split; [now apply FindTextureSlot_absent_ok|]. now left.
  - exists (Z.of_nat i). split; [now apply FindTextureSlot_found_ok|].
    right. exists i. split; [reflexivity|]. split; [|exact Hi].
    destruct Hi as [Hlt _]. lia.
Qed.

Lemma FindTextureID_while_skip (d : nat) :
  forall (fuel : nat) tag (id : Z) (k : nat) w,
    Z.of_nat (k + d) <= m_loadedTextures (this w) ->
    (k + d <= length (m_textureIDs (this w)))%nat ->
    (forall (j : nat) (e : TEXTURE_INFO),
        (k <= j < k + d)%nat ->
        m_textureIDs (this w) !! j = Some e -> tex_tag e <> tag) ->
    FindTextureID_while (d + fuel) tag id (Z.of_nat k) false w =
    FindTextureID_while fuel tag id (Z.of_nat (k + d)) false w.
Proof.
  induction d as [|d IH]; intros fuel tag id k w HL Hlen Hne.
  - now rewrite Nat.add_0_r.
  - destruct (lookup_lt_is_Some_2 (m_textureIDs (this w)) k) as [e He]; [lia|].
    cbn [Nat.add FindTextureID_while]. unfold bind at 1, get_this.
    destruct (Z.ltb_spec (Z.of_nat k) (m_loadedTextures (this w))); [|lia].
    cbn [andb negb]. unfold bind at 1. rewrite (texture_at_ok w k e He).
    rewrite compare_is_zero_false by (apply (Hne k); [lia|exact He]).
    replace (Z.of_nat k + 1) with (Z.of_nat (S k)) by lia.
    rewrite IH.
    + now replace (S k + d)%nat with (k + S d)%nat by lia.
    + lia.
    + lia.
    + intros j e' Hj. apply Hne. lia.
Qed.

Lemma int_of_uint32_small (v : Z) :
  0 <= v < 2 ^ 31 -> int_of_uint32 v = v.
Proof.
  intros Hv. unfold int_of_uint32. rewrite Z.mod_small; lia.
Qed.

(** X2: on a registry whose counter is within the array, [FindTextureID]
    always returns and leaves the world as it was.  It returns -1 when no
    texture in use carries the tag; otherwise it returns the ID of the
    first texture in use that carries it, converted to [int] (the ID itself
    when it is below 2^31), which is the ID of the entry at the slot
    [FindTextureSlot] returns for the same tag. *)
Theorem FindTextureID_first_or_sentinel w tag :
  textures_in_bounds (this w) ->
  exists r,
    FindTextureID tag w = Ok r w /\
    ((r = -1 /\ texture_absent tag (this w)) \/
     (exists (i : nat) (e : TEXTURE_INFO),
         FindTextureSlot tag w = Ok (Z.of_nat i) w /\
         m_textureIDs (this w) !! i = Some e /\
         tex_tag e = tag /\
         r = int_of_uint32 (tex_ID e) /\
         (0 <= tex_ID e < 2 ^ 31 -> r = tex_ID e))).
Proof.
  intros Hb. destruct (texture_absent_or_first (this w) tag) as [Habs|[i Hi]].
  - exists (-1). split; [|now left].
    unfold FindTextureID, bind at 1, get_this. cbn beta iota.
    destruct (Z_lt_le_dec 0 (m_loadedTextures (this w))) as [Hpos|Hneg].
    + replace (S (Z.to_nat (m_loadedTextures (this w))))
        with (Z.to_nat (m_loadedTextures (this w)) + 1)%nat by lia.
      change 0 with (Z.of_nat 0).
      rewrite FindTextureID_while_skip.
      * cbn [Nat.add FindTextureID_while]. unfold bind, get_this, ret.
        destruct (Z.ltb_spec (Z.of_nat (Z.to_nat (m_loadedTextures (this w))))
                    (m_loadedTextures (this w))); [lia|reflexivity].
      * lia.
      * unfold textures_in_bounds in Hb. lia.
      * intros j e Hj. apply Habs. lia.
    + replace (Z.to_nat (m_loadedTextures (this w))) with 0%nat by lia.
      cbn [FindTextureID_while]. unfold bind, get_this, ret.
      destruct (Z.ltb_spec 0 (m_loadedTextures (this w))); [lia|reflexivity].
  - pose proof Hi as (Hlt & (e & He & Htag) & Hfirst).
    exists (int_of_uint32 (tex_ID e)). split.
    + unfold FindTextureID, bind at 1, get_this. cbn beta iota.
      replace (S (Z.to_nat (m_loadedTextures (this w))))
        with (i + S (S (Z.to_nat (m_loadedTextures (this w)) - S i)))%nat by lia.
      change 0 with (Z.of_nat 0).
      rewrite FindTextureID_while_skip.
      * cbn [Nat.add FindTextureID_while]. unfold bind at 1, get_this.
        destruct (Z.ltb_spec (Z.of_nat i) (m_loadedTextures (this w))); [|lia].
        cbn [andb negb]. unfold bind at 1. rewrite (texture_at_ok w i e He).
        assert (Hc : compare_is_zero (tex_tag e) tag = true)
          by now apply compare_is_zero_true.
        rewrite Hc. unfold bind, get_this, ret.
        now rewrite andb_false_r.
      * lia.
      * apply lookup_lt_Some in He. lia.
      * intros j e' Hj. apply Hfirst. lia.
    + right. exists i, e.
      split; [now apply FindTextureSlot_found_ok|].
      split; [exact He|]. split; [exact Htag|]. split; [reflexivity|].
      apply int_of_uint32_small.
Qed.

(** *** Texture loads *)

Ltac unfold_load :=
  unfold CreateGLTexture, upload_image, texture_update, texture_at,
    increment_loadedTextures;
  unfold bind, ret, raise, get_this, put_this, print, gl_call, glGenTextures;
  fields.

Lemma CreateGLTexture_false_inv w (filename : string) tag (w' : World float) :
  CreateGLTexture stbi_load filename tag w = Ok false w' ->
  this w' = this w /\
  ((stbi_load filename = None /\
    gl w' = gl w /\ cout w' = cout w ++ [CouldNotLoad filename]) \/
   (exists image,
       stbi_load filename = Some image /\
       img_channels image <> 3 /\ img_channels image <> 4)).
Proof.
  unfold_load.
  destruct (stbi_load filename) as [image|] eqn:Hload.
  - destruct (Z.eqb_spec (img_channels image) 3) as [E3|E3];
      [|destruct (Z.eqb_spec (img_channels image) 4) as [E4|E4]]; fields.
    1, 2: destruct (0 <=? m_loadedTextures (this w)); [|discriminate];
      destruct (m_textureIDs (this w) !! Z.to_nat (m_loadedTextures (this w)))
        as [e|] eqn:He; [|discriminate]; fields;
      rewrite list_lookup_insert_eq by (eapply lookup_lt_Some; exact He);
      fields;
      destruct (m_loadedTextures (this w) <? INT_MAX); discriminate.
    intros Hw'. injection Hw' as <-. split; [reflexivity|].
    right. now exists image.
  - intros Hw'. injection Hw' as <-. split; [reflexivity|].
    left. repeat split; reflexivity.
Qed.

(** X3: when [CreateGLTexture] returns [false], the scene manager itself is
    untouched (counter, texture array, materials, shader pointer), and the
    cause is one of two: the file could not be decoded, in which case no
    OpenGL call was made and the console got the "Could not load" line, or
    it decoded to an image whose channel count is neither 3 nor 4. *)
Theorem CreateGLTexture_false_causes w (filename : string) tag
    (w' : World float) :
  CreateGLTexture stbi_load filename tag w = Ok false w' ->
  this w' = this w /\
  ((stbi_load filename = None /\
    gl w' = gl w /\ cout w' = cout w ++ [CouldNotLoad filename]) \/
   (exists image,
       stbi_load filename = Some image /\
       img_channels image <> 3 /\ img_channels image <> 4)).
Proof. apply CreateGLTexture_false_inv. Qed.

(** X4: on an image whose channel count is neither 3 nor 4,
    [CreateGLTexture] has already generated a texture name and bound it
    when it returns [false]: the name stays in use, no texture is
    unbound or deleted, and the texture it bound stays bound. *)
Theorem CreateGLTexture_unsupported_keeps_name w (filename : string) tag
    (image : Image) :
  stbi_load filename = Some image ->
  img_channels image <> 3 ->
  img_channels image <> 4 ->
  exists w',
    CreateGLTexture stbi_load filename tag w = Ok false w' /\
    glTextureNames (gl w') =
      glTextureNames (gl w) ++ [gl_fresh_name (glTextureNames (gl w))] /\
    glTrace (gl w') =
      glTrace (gl w) ++
      [GenTextures (gl_fresh_name (glTextureNames (gl w)));
       BindTexture2D (gl_fresh_name (glTextureNames (gl w)));
       TexParameteri2D GL_TEXTURE_WRAP_S GL_REPEAT;
       TexParameteri2D GL_TEXTURE_WRAP_T GL_REPEAT;
       TexParameteri2D GL_TEXTURE_MIN_FILTER GL_LINEAR;
       TexParameteri2D GL_TEXTURE_MAG_FILTER GL_LINEAR].
Proof.
  intros Hload H3 H4. unfold_load. rewrite Hload.
  destruct (Z.eqb_spec (img_channels image) 3); [contradiction|].
  destruct (Z.eqb_spec (img_channels image) 4); [contradiction|].
  eexists. split; [reflexivity|]. fields.
  split; [reflexivity|]. now rewrite <- !app_assoc.
Qed.

(** X5: on an image with 3 or 4 channels and a counter that indexes a slot
    of the array, [CreateGLTexture] returns [true]; the slot at the old
    counter then holds the generated texture name and the tag, the other
    slots are as before, the counter is one more, and the OpenGL calls
    were: generate, bind, repeat wrapping and linear filtering, the upload
    in RGB8 or RGBA8 by the channel count, mipmaps, unbind. *)
Theorem CreateGLTexture_registers w (filename : string) tag (image : Image) :
  stbi_load filename = Some image ->
  img_channels image = 3 \/ img_channels image = 4 ->
  0 <= m_loadedTextures (this w) < Z.of_nat (length (m_textureIDs (this w))) ->
  m_loadedTextures (this w) < INT_MAX ->
  exists w',
    CreateGLTexture stbi_load filename tag w = Ok true w' /\
    m_loadedTextures (this w') = m_loadedTextures (this w) + 1 /\
    m_textureIDs (this w') =
      <[Z.to_nat (m_loadedTextures (this w)) :=
          {| tex_ID := gl_fresh_name (glTextureNames (gl w)); tex_tag := tag |}]>
        (m_textureIDs (this w)) /\
    m_objectMaterials (this w') = m_objectMaterials (this w) /\
    m_pShaderManager (this w') = m_pShaderManager (this w) /\
    glTextureNames (gl w') =
      glTextureNames (gl w) ++ [gl_fresh_name (glTextureNames (gl w))] /\
    glTrace (gl w') =
      glTrace (gl w) ++
      [GenTextures (gl_fresh_name (glTextureNames (gl w)));
       BindTexture2D (gl_fresh_name (glTextureNames (gl w)));
       TexParameteri2D GL_TEXTURE_WRAP_S GL_REPEAT;
       TexParameteri2D GL_TEXTURE_WRAP_T GL_REPEAT;
       TexParameteri2D GL_TEXTURE_MIN_FILTER GL_LINEAR;
       TexParameteri2D GL_TEXTURE_MAG_FILTER GL_LINEAR;
       (if img_channels image =? 3
        then TexImage2D GL_RGB8 (img_width image) (img_height image) GL_RGB
        else TexImage2D GL_RGBA8 (img_width image) (img_height image) GL_RGBA);
       GenerateMipmap2D;
       BindTexture2D 0].
Proof.
  intros Hload Hch Hn Hmax.
  destruct (lookup_lt_is_Some_2 (m_textureIDs (this w))
              (Z.to_nat (m_loadedTextures (this w)))) as [e He]; [lia|].
  unfold_load. rewrite Hload.
  assert (Hup : (img_channels image =? 3) = true \/
                ((img_channels image =? 3) = false /\
                 (img_channels image =? 4) = true)).
  { destruct Hch as [-> | ->]; [left|right]; auto. }
  destruct Hup as [-> | [-> ->]]; fields.
  all: destruct (Z.leb_spec 0 (m_loadedTextures (this w))); [|lia].
  all: rewrite He; fields.
  all: rewrite list_lookup_insert_eq by (eapply lookup_lt_Some; exact He).
  all: fields.
  all: destruct (Z.ltb_spec (m_loadedTextures (this w)) INT_MAX); [|lia].
  all: eexists; split; [reflexivity|]; fields.
  all: split; [reflexivity|].
  all: split; [now rewrite list_insert_insert_eq|].
  all: split; [reflexivity|]; split; [reflexivity|]; split; [reflexivity|].
  all: now rewrite <- !app_assoc.
Qed.

(** X6: [CreateGLTexture] has no capacity check.  On an image with 3 or 4
    channels and a counter that does not index a slot of the array (the
    array is full), it generates and uploads the texture and then writes
    past the array. *)
Theorem CreateGLTexture_full_array w (filename : string) tag :
  decodes_supported stbi_load filename ->
  Z.of_nat (length (m_textureIDs (this w))) <= m_loadedTextures (this w) ->
  CreateGLTexture stbi_load filename tag w = Fault OutOfBounds.
Proof.
  intros (image & Hload & Hch) Hfull.
  unfold_load. rewrite Hload.
  assert (Hnone : m_textureIDs (this w) !! Z.to_nat (m_loadedTextures (this w))
                  = None) by (apply lookup_ge_None; lia).
  assert (Hup : (img_channels image =? 3) = true \/
                ((img_channels image =? 3) = false /\
                 (img_channels image =? 4) = true)).
  { destruct Hch as [-> | ->]; [left|right]; auto. }
  destruct Hup as [-> | [-> ->]]; fields.
  all: rewrite Hnone.
  all: now destruct (0 <=? m_loadedTextures (this w)).
Qed.

Lemma CreateGLTexture_keeps_first_at w (filename : string) tag (b : bool)
    (w' : World float) (tag' : string) (i : nat) :
  CreateGLTexture stbi_load filename tag w = Ok b w' ->
  textures_in_bounds (this w) ->
  texture_first_at tag' i (this w) ->
  textures_in_bounds (this w') /\ texture_first_at tag' i (this w').
Proof.
  intros Hrun Hb Hi. destruct b.
  - destruct (CreateGLTexture_true stbi_load w filename tag w' Hrun)
      as (n & e & name & Hn & He & Hn' & Harr & _ & _).
    pose proof (lookup_lt_Some _ _ _ He) as Hlt.
    destruct Hi as (Hlti & (ei & Hei & Hti) & Hfirst).
    unfold textures_in_bounds, texture_first_at.
    rewrite Hn', Harr, length_insert.
    split; [lia|]. split; [lia|]. split.
    + exists ei. split; [|exact Hti].
      rewrite list_lookup_insert_ne by lia. exact Hei.
    + intros j e' Hj He'. apply (Hfirst j e' Hj).
      rewrite list_lookup_insert_ne in He' by lia. exact He'.
  - destruct (CreateGLTexture_false_inv w filename tag w' Hrun) as [-> _].
    now split.
Qed.

(** X7: slots are stable.  Whatever [CreateGLTexture] returns, a tag that
    [FindTextureSlot] resolved before the call resolves to the same slot
    after it; this holds also when the new texture is loaded under that
    very tag, so a texture loaded under a tag already in use is never
    found by its tag. *)
Theorem CreateGLTexture_keeps_slots w (filename : string) tag (b : bool)
    (w' : World float) (tag' : string) (i : nat) :
  CreateGLTexture stbi_load filename tag w = Ok b w' ->
  textures_in_bounds (this w) ->
  texture_first_at tag' i (this w) ->
  FindTextureSlot tag' w = Ok (Z.of_nat i) w /\
  FindTextureSlot tag' w' = Ok (Z.of_nat i) w'.
Proof.
  intros Hrun Hb Hi.
  split; [now apply FindTextureSlot_found_ok|].
  destruct (CreateGLTexture_keeps_first_at w filename tag b w' tag' i Hrun Hb Hi).
  now apply FindTextureSlot_found_ok.
Qed.

Lemma registered_tags_sublist (loads : list (string * string)) :
  forall results : list bool,
    registered_tags loads results `sublist_of` loads.*2.
Proof.
  induction loads as [|[filename tag] loads IH]; intros results.
  - constructor.
  - destruct results as [|[] results]; cbn [registered_tags fmap list_fmap snd].
    + apply sublist_nil_l.
    + now apply sublist_skip.
    + now apply sublist_cons.
Qed.

Lemma registry_tags_all_results (loads : list (string * string)) :
  forall (tags : list string) w (results : list bool) (w' : World float),
    registry_tags tags (this w) ->
    CreateGLTexture_all stbi_load loads w = Ok results w' ->
    registry_tags (tags ++ registered_tags loads results) (this w') /\
    length results = length loads.
Proof.
  induction loads as [|[filename tag] loads IH];
    intros tags w results w' Hinv Hrun.
  - cbn [CreateGLTexture_all] in Hrun. unfold ret in Hrun.
    injection Hrun as <- <-. cbn [registered_tags]. now rewrite app_nil_r.
  - cbn [CreateGLTexture_all] in Hrun. unfold bind at 1 in Hrun.
    destruct (CreateGLTexture stbi_load filename tag w) as [b w1|] eqn:H1;
      [|discriminate].
    unfold bind at 1 in Hrun.
    destruct (CreateGLTexture_all stbi_load loads w1) as [bs w2|] eqn:H2;
      [|discriminate].
    unfold ret in Hrun. injection Hrun as <- <-.
    destruct b; cbn [registered_tags length].
    + destruct (IH (tags ++ [tag]) w1 bs w2) as [Hreg Hlen];
        [now apply (registry_tags_load stbi_load w filename)|exact H2|].
      rewrite (cons_middle tag), app_assoc. split; [exact Hreg|lia].
    + destruct (CreateGLTexture_false_inv w filename tag w1 H1) as [Hthis _].
      destruct (IH tags w1 bs w2) as [Hreg Hlen];
        [now rewrite Hthis|exact H2|].
      split; [exact Hreg|lia].
Qed.

(** X8: a run of [CreateGLTexture] calls goes on after a call that returns
    [false], and the slots are positions among the successful loads only.
    After a run on a fresh registry with pairwise distinct tags, whatever
    the calls returned, the registry holds the tags of the calls that
    returned [true], in call order: the k-th of them has slot k, so every
    failed load moves the later textures one slot down, and a tag whose
    load failed is answered with -1. *)
Theorem CreateGLTexture_all_registered w (loads : list (string * string))
    (results : list bool) (w' : World float) :
  m_loadedTextures (this w) = 0 ->
  NoDup (loads.*2) ->
  CreateGLTexture_all stbi_load loads w = Ok results w' ->
  length results = length loads /\
  m_loadedTextures (this w')
    = Z.of_nat (length (registered_tags loads results)) /\
  (forall (k : nat) tag,
      registered_tags loads results !! k = Some tag ->
      FindTextureSlot tag w' = Ok (Z.of_nat k) w') /\
  (forall tag,
      tag ∉ registered_tags loads results ->
      FindTextureSlot tag w' = Ok (-1) w').
Proof.
  intros H0 Hnodup Hrun.
  destruct (registry_tags_all_results loads [] w results w') as [Hinv Hlen];
    [|exact Hrun|].
  { unfold registry_tags. simpl. split; [exact H0|]. split; [lia|].
    intros i t Hi. discriminate. }
  cbn [app] in Hinv.
  assert (Hnd : NoDup (registered_tags loads results))
    by (eapply sublist_NoDup; [exact Hnodup|apply registered_tags_sublist]).
  split; [exact Hlen|]. split; [apply Hinv|]. split.
  - intros k tag Hk. now apply (registry_tags_find w' _ k tag Hinv).
  - intros tag Hnot. destruct Hinv as (Hcount & Hle & Htags).
    apply FindTextureSlot_absent_ok; [unfold textures_in_bounds; lia|].
    intros j e Hj He Heq.
    destruct (lookup_lt_is_Some_2 (registered_tags loads results) j) as [t Ht];
      [lia|].
    destruct (Htags j t Ht) as (e' & He' & Htag).
    assert (e' = e) as -> by congruence.
    apply Hnot. apply list_elem_of_lookup. exists j. congruence.
Qed.

(** *** Binding and release *)

Lemma for_loadedTextures_inv (body : Z -> M float unit) (count : Z)
    (I : nat -> World float -> Prop) :
  (forall (k : nat) w,
      Z.of_nat k < count -> I k w ->
      exists w1, body (Z.of_nat k) w = Ok tt w1 /\ I (S k) w1) ->
  (forall (k : nat) w, I k w -> m_loadedTextures (this w) = count) ->
  forall (d k fuel : nat) w,
    (k + d)%nat = Z.to_nat count -> (d < fuel)%nat -> I k w ->
    exists w',
      for_loadedTextures fuel (Z.of_nat k) body w = Ok tt w' /\
      I (Z.to_nat count) w'.
Proof.
  intros Hbody Hcount. induction d as [|d IH]; intros k fuel w Hk Hfuel Hinv.
  - destruct fuel as [|fuel]; [lia|].
    cbn [for_loadedTextures]. unfold bind at 1, get_this.
    rewrite (Hcount k w Hinv).
    destruct (Z.ltb_spec (Z.of_nat k) count); [lia|].
    exists w. split; [reflexivity|]. now replace (Z.to_nat count) with k by lia.
  - destruct fuel as [|fuel]; [lia|].
    cbn [for_loadedTextures]. unfold bind at 1, get_this.
    rewrite (Hcount k w Hinv).
    destruct (Z.ltb_spec (Z.of_nat k) count); [|lia].
    destruct (Hbody k w) as (w1 & Hb & Hinv1); [lia|exact Hinv|].
    unfold bind at 1. rewrite Hb.
    replace (Z.of_nat k + 1) with (Z.of_nat (S k)) by lia.
    apply IH; [lia|lia|exact Hinv1].
Qed.

Lemma with_gl_calls_app w (a b : list GLCall) :
  with_gl_calls b (with_gl_calls a w) = with_gl_calls (a ++ b) w.
Proof. unfold with_gl_calls. simpl. now rewrite <- app_assoc. Qed.

Lemma with_gl_calls_nil w : with_gl_calls [] w = w.
Proof.
  destruct w as [s [names trace] c]. unfold with_gl_calls. simpl.
  now rewrite app_nil_r.
Qed.

Lemma bind_calls_app (l1 l2 : list TEXTURE_INFO) :
  forall unit : Z,
    bind_calls unit (l1 ++ l2) =
    bind_calls unit l1 ++ bind_calls (unit + Z.of_nat (length l1)) l2.
Proof.
  induction l1 as [|e l1 IH]; intros unit; cbn [app bind_calls length].
  - now rewrite Z.add_0_r.
  - replace (unit + Z.of_nat (S (length l1)))
      with (unit + 1 + Z.of_nat (length l1)) by lia.
    now rewrite IH.
Qed.

Lemma BindGLTextures_binds_slots_aux w :
  textures_in_bounds (this w) ->
  BindGLTextures w =
  Ok tt (with_gl_calls
           (bind_calls 0 (take (Z.to_nat (m_loadedTextures (this w)))
                               (m_textureIDs (this w)))) w).
Proof.
  intros Hb. unfold BindGLTextures, bind at 1, get_this. cbn beta iota.
  set (count := m_loadedTextures (this w)).
  set (arr := m_textureIDs (this w)).
  destruct (for_loadedTextures_inv
              (fun i => bind (gl_call (ActiveTexture i))
                          (fun _ => bind (texture_at i)
                             (fun e => gl_call (BindTexture2D (tex_ID e)))))
              count
              (fun k w1 => w1 = with_gl_calls (bind_calls 0 (take k arr)) w)
              ) with (d := Z.to_nat count) (k := 0%nat)
                     (fuel := S (Z.to_nat count)) (w := w)
    as (w' & Hrun & ->).
  - intros k w1 Hk ->.
    destruct (lookup_lt_is_Some_2 arr k) as [e He];
      [unfold textures_in_bounds in Hb; subst count arr; lia|].
    eexists. split.
    + unfold bind at 1, gl_call at 1. fields. unfold bind at 1.
      rewrite (texture_at_ok _ k e) by exact He.
      unfold gl_call. fields. reflexivity.
    + rewrite (take_S_r arr k e He), bind_calls_app.
      rewrite length_take_le
        by (unfold textures_in_bounds in Hb; subst count arr; lia).
      cbn [bind_calls]. unfold with_gl_calls. fields.
      rewrite Z.add_0_l. now rewrite <- !app_assoc.
  - intros k w1 ->. reflexivity.
  - lia.
  - lia.
  - now rewrite take_0, with_gl_calls_nil.
  - exact Hrun.
Qed.

(** X9: on a registry whose counter is within the array, [BindGLTextures]
    returns normally and does exactly this: for i from 0 below the counter,
    in this order, it makes texture unit i active and binds to it the ID
    registered in slot i; nothing else changes. *)
Theorem BindGLTextures_binds_slots w :
  textures_in_bounds (this w) ->
  BindGLTextures w =
  Ok tt (with_gl_calls
           (bind_calls 0 (take (Z.to_nat (m_loadedTextures (this w)))
                               (m_textureIDs (this w)))) w).
Proof. apply BindGLTextures_binds_slots_aux. Qed.

Lemma gl_fresh_name_above (names : list Z) (x : Z) :
  x ∈ names -> x < gl_fresh_name names.
Proof.
  unfold gl_fresh_name. induction names as [|y names IH]; intros Hx.
  - inversion Hx.
  - cbn [foldr]. apply elem_of_cons in Hx as [->|Hx]; [lia|].
    specialize (IH Hx). lia.
Qed.

Lemma lookup_same_tags (arr arr' : list TEXTURE_INFO) (j : nat)
    (e' : TEXTURE_INFO) :
  tex_tag <$> arr' = tex_tag <$> arr ->
  arr' !! j = Some e' ->
  exists e, arr !! j = Some e /\ tex_tag e = tex_tag e'.
Proof.
  intros Htags He'.
  assert (Hl : (tex_tag <$> arr) !! j = Some (tex_tag e'))
    by (rewrite <- Htags, list_lookup_fmap, He'; reflexivity).
  rewrite list_lookup_fmap in Hl.
  destruct (arr !! j) as [e|]; [|discriminate].
  exists e. split; [reflexivity|]. now injection Hl.
Qed.

Lemma same_tags_transfer s (s' : SceneManager float) tag :
  m_loadedTextures s' = m_loadedTextures s ->
  tex_tag <$> m_textureIDs s' = tex_tag <$> m_textureIDs s ->
  (textures_in_bounds s -> textures_in_bounds s') /\
  (texture_absent tag s -> texture_absent tag s') /\
  (forall i : nat, texture_first_at tag i s -> texture_first_at tag i s').
Proof.
  own_variables.
  intros Hcount Htags.
  assert (Hlen : length (m_textureIDs s') = length (m_textureIDs s))
    by (rewrite <- (length_fmap tex_tag), Htags; apply length_fmap).
  split; [|split].
  - unfold textures_in_bounds. rewrite Hcount, Hlen. tauto.
  - intros Habs j e' Hj He'. rewrite Hcount in Hj.
    destruct (lookup_same_tags _ _ j e' Htags He') as (e & He & <-).
    now apply (Habs j e).
  - intros i (Hi & (e & He & Ht) & Hfirst).
    split; [now rewrite Hcount|]. split.
    + destruct (lookup_same_tags _ _ i e (eq_sym Htags) He) as (e' & He' & Ht').
      exists e'. split; [exact He'|congruence].
    + intros j e' Hj He'.
      destruct (lookup_same_tags _ _ j e' Htags He') as (e0 & He0 & <-).
      now apply (Hfirst j e0).
Qed.

(** X10: on a registry whose counter is within the array,
    [DestroyGLTextures] returns normally and releases nothing.  Every
    texture name in use before the call is still in use after it, one new
    name per registered texture has been generated on top, and each
    registered ID has been overwritten with a name that was not in use
    before, so the IDs of the loaded textures are lost.  The counter and
    the tags stay, so [FindTextureSlot] answers as before. *)
Theorem DestroyGLTextures_releases_nothing w :
  textures_in_bounds (this w) ->
  exists (w' : World float) (generated : list Z),
    DestroyGLTextures w = Ok tt w' /\
    glTextureNames (gl w') = glTextureNames (gl w) ++ generated /\
    length generated = Z.to_nat (m_loadedTextures (this w)) /\
    m_loadedTextures (this w') = m_loadedTextures (this w) /\
    tex_tag <$> m_textureIDs (this w') = tex_tag <$> m_textureIDs (this w) /\
    (forall (j : nat) (e : TEXTURE_INFO),
        Z.of_nat j < m_loadedTextures (this w) ->
        m_textureIDs (this w') !! j = Some e ->
        tex_ID e ∉ glTextureNames (gl w)) /\
    (forall tag (r : Z),
        FindTextureSlot tag w = Ok r w -> FindTextureSlot tag w' = Ok r w').
Proof.
  intros Hb. unfold DestroyGLTextures, bind at 1, get_this. cbn beta iota.
  set (count := m_loadedTextures (this w)).
  destruct (for_loadedTextures_inv
              (fun i => bind (texture_at i)
                          (fun _ => bind glGenTextures
                             (fun name => texture_update i (set_ID name))))
              count
              (fun k w1 =>
                 m_loadedTextures (this w1) = count /\
                 tex_tag <$> m_textureIDs (this w1)
                   = tex_tag <$> m_textureIDs (this w) /\
                 (exists generated,
                     glTextureNames (gl w1) = glTextureNames (gl w) ++ generated /\
                     length generated = k) /\
                 (forall (j : nat) (e : TEXTURE_INFO),
                     (j < k)%nat -> m_textureIDs (this w1) !! j = Some e ->
                     tex_ID e ∉ glTextureNames (gl w))))
    with (d := Z.to_nat count) (k := 0%nat) (fuel := S (Z.to_nat count)) (w := w)
    as (w' & Hrun & Hcount & Htags & (generated & Hnames & Hlen) & Hids).
  - intros k w1 Hk (Hc1 & Ht1 & (generated & Hn1 & Hl1) & Hids1).
    assert (Hlen1 : length (m_textureIDs (this w1)) = length (m_textureIDs (this w)))
      by (rewrite <- (length_fmap tex_tag), Ht1; apply length_fmap).
    destruct (lookup_lt_is_Some_2 (m_textureIDs (this w1)) k) as [e He];
      [unfold textures_in_bounds in Hb; subst count; lia|].
    eexists. split.
    + unfold bind at 1. rewrite (texture_at_ok w1 k e He).
      unfold bind at 1, glGenTextures. unfold texture_update.
      unfold bind at 1. rewrite (texture_at_ok _ k e) by exact He.
      unfold bind, get_this, put_this. fields. rewrite Nat2Z.id. reflexivity.
    + fields. split; [exact Hc1|]. split; [|split].
      * rewrite list_fmap_insert. rewrite list_insert_id; [exact Ht1|].
        now rewrite list_lookup_fmap, He.
      * exists (generated ++ [gl_fresh_name (glTextureNames (gl w1))]).
        split; [now rewrite Hn1, app_assoc|]. rewrite length_app. simpl. lia.
      * intros j e' Hj He'.
        destruct (decide (j = k)) as [->|Hne].
        -- rewrite list_lookup_insert_eq in He'
             by (eapply lookup_lt_Some; exact He).
           injection He' as <-. cbn [set_ID tex_ID]. intros Hin.
           assert (Hin1 : gl_fresh_name (glTextureNames (gl w1))
                          ∈ glTextureNames (gl w1))
             by (rewrite Hn1 in Hin |- *; apply elem_of_app; now left).
           apply gl_fresh_name_above in Hin1. lia.
        -- rewrite list_lookup_insert_ne in He' by lia.
           apply (Hids1 j e'); [lia|exact He'].
  - intros k w1 (Hc1 & _). exact Hc1.
  - lia.
  - lia.
  - split; [reflexivity|]. split; [reflexivity|]. split.
    + exists []. split; [now rewrite app_nil_r|reflexivity].
    + intros j e Hj. lia.
  - exists w', generated. split; [exact Hrun|]. split; [exact Hnames|].
    split; [exact Hlen|]. split; [exact Hcount|]. split; [exact Htags|].
    split.
    + intros j e Hj. apply Hids. lia.
    + intros tag r Hfind.
      destruct (same_tags_transfer (this w) (this w') tag Hcount Htags)
        as (Hb' & Habs' & Hfirst').
      destruct (texture_absent_or_first (this w) tag) as [Habs|[i Hi]].
      * rewrite (FindTextureSlot_absent_ok w tag Hb Habs) in Hfind.
        injection Hfind as <-.
        apply FindTextureSlot_absent_ok; [now apply Hb'|now apply Habs'].
      * rewrite (FindTextureSlot_found_ok w tag i Hb Hi) in Hfind.
        injection Hfind as <-.
        apply FindTextureSlot_found_ok; [now apply Hb'|now apply Hfirst'].
Qed.

(** *** Materials *)

Lemma material_absent_or_first s tag :
  material_absent tag s \/ exists i e, material_first_at tag i e s.
Proof.
  assert (Hn : forall n : nat,
    (forall (j : nat) (e : OBJECT_MATERIAL float),
        (j < n)%nat -> m_objectMaterials s !! j = Some e -> mat_tag e <> tag) \/
    exists i e, material_first_at tag i e s).
  { induction n as [|n [IH|IH]]; [left; intros; lia| |right; exact IH].
    destruct (m_objectMaterials s !! n) as [e|] eqn:He.
    - destruct (decide (mat_tag e = tag)) as [Ht|Hno].
      + right. exists n, e. split; [exact He|]. split; [exact Ht|exact IH].
      + left. intros j e' Hj He'.
        destruct (decide (j = n)) as [->|Hne].
        * assert (e' = e) as -> by congruence. exact Hno.
        * apply (IH j e'); [lia|exact He'].
    - left. intros j e' Hj He'.
      destruct (decide (j = n)) as [->|Hne]; [congruence|].
      apply (IH j e'); [lia|exact He']. }
  destruct (Hn (length (m_objectMaterials s))) as [Habs|Hfirst];
    [left|now right].
  intros j e He. apply (Habs j e); [|exact He].
  now apply lookup_lt_Some in He.
Qed.

Lemma FindMaterial_result_aux w tag (material : OBJECT_MATERIAL float) :
  exists (b : bool) (found : OBJECT_MATERIAL float),
    FindMaterial tag material w = Ok (b, found) w /\
    (b = true <-> m_objectMaterials (this w) <> []) /\
    mat_tag found = mat_tag material /\
    ((material_absent tag (this w) /\ found = material) \/
     (exists i e,
         material_first_at tag i e (this w) /\
         found = copy_values e material)).
Proof.
  destruct (material_absent_or_first (this w) tag) as [Habs|(i & e & Hfirst)].
  - destruct (m_objectMaterials (this w)) as [|m0 mats] eqn:Hmats.
    + exists false, material.
      split; [now apply FindMaterial_empty|].
      split; [split; [discriminate|congruence]|]. split; [reflexivity|].
      now left.
    + exists true, material. split.
      * apply FindMaterial_unresolved; [now rewrite Hmats|].
        intros j e0 He0. now apply (Habs j e0).
      * split; [split; [discriminate|reflexivity]|]. split; [reflexivity|].
        left. now split.
  - exists true, (copy_values e material).
    destruct Hfirst as (He & Ht & Hbefore).
    split; [now apply (FindMaterial_first w tag material e i)|].
    split.
    + split; [|reflexivity]. intros _ Hnil. now rewrite Hnil in He.
    + split; [reflexivity|]. right. exists i, e. now repeat split.
Qed.

(** X11: [FindMaterial] always returns and leaves the world as it was.  The
    [bool] it returns says only whether the registry holds any material at
    all, not whether the tag was found.  The reference parameter keeps its
    tag; it receives the colours and the shininess of the first material
    that carries the tag, and stays as it came in when there is none. *)
Theorem FindMaterial_result w tag (material : OBJECT_MATERIAL float) :
  exists (b : bool) (found : OBJECT_MATERIAL float),
    FindMaterial tag material w = Ok (b, found) w /\
    (b = true <-> m_objectMaterials (this w) <> []) /\
    mat_tag found = mat_tag material /\
    ((material_absent tag (this w) /\ found = material) \/
     (exists i e,
         material_first_at tag i e (this w) /\
         found = copy_values e material)).
Proof. apply FindMaterial_result_aux. Qed.

Ltac shader_step Hsm :=
  erewrite bind_Ok
    by (eapply shader_set_ok;
        first [exact Hsm | eapply write_uniforms_shader; exact Hsm]);
  rewrite ?write_uniforms_app; cbn [app].

Lemma SetShaderMaterial_resolved_aux w (sm : ShaderManager float) tag (i : nat)
    (e : OBJECT_MATERIAL float) :
  m_pShaderManager (this w) = Some sm ->
  material_first_at tag i e (this w) ->
  SetShaderMaterial uninitialized_material tag w =
  Ok tt (write_uniforms
           [("material.diffuseColor"%string, UVec3 (mat_diffuseColor e));
            ("material.specularColor"%string, UVec3 (mat_specularColor e));
            ("material.shininess"%string, UFloat (mat_shininess e))] w).
Proof.
  intros Hsm (He & Ht & Hbefore).
  unfold SetShaderMaterial, bind at 1, get_this. cbn beta iota.
  destruct (Nat.ltb_spec 0 (length (m_objectMaterials (this w)))) as [E|E].
  - cbv zeta.
    rewrite (bind_Ok _ _ _ _ _
               (FindMaterial_first w tag uninitialized_material e i He Ht Hbefore)).
    cbn [fst snd mat_diffuseColor mat_specularColor mat_shininess].
    unfold setVec3Value, setFloatValue.
    shader_step Hsm. shader_step Hsm.
    erewrite shader_set_ok by (eapply write_uniforms_shader; exact Hsm).
    now rewrite write_uniforms_app.
  - apply lookup_lt_Some in He. lia.
Qed.

(** X12: on a shader manager, [SetShaderMaterial] with a tag that some
    material carries writes the diffuse colour, the specular colour and the
    shininess of the first such material, and nothing else. *)
Theorem SetShaderMaterial_resolved w (sm : ShaderManager float) tag (i : nat)
    (e : OBJECT_MATERIAL float) :
  m_pShaderManager (this w) = Some sm ->
  material_first_at tag i e (this w) ->
  SetShaderMaterial uninitialized_material tag w =
  Ok tt (write_uniforms
           [("material.diffuseColor"%string, UVec3 (mat_diffuseColor e));
            ("material.specularColor"%string, UVec3 (mat_specularColor e));
            ("material.shininess"%string, UFloat (mat_shininess e))] w).
Proof. apply SetShaderMaterial_resolved_aux. Qed.

Lemma SetShaderMaterial_null_shader_aux w tag :
  m_pShaderManager (this w) = None ->
  (m_objectMaterials (this w) <> [] ->
   SetShaderMaterial uninitialized_material tag w = Fault NullPointer) /\
  (m_objectMaterials (this w) = [] ->
   SetShaderMaterial uninitialized_material tag w = Ok tt w).
Proof.
  intros Hnull. split.
  - intros Hne.
    destruct (FindMaterial_result_aux w tag uninitialized_material)
      as (b & found & Hfind & Hb & _).
    assert (b = true) as -> by now apply Hb.
    unfold SetShaderMaterial, bind at 1, get_this. cbn beta iota.
    destruct (Nat.ltb_spec 0 (length (m_objectMaterials (this w)))) as [E|E].
    + cbv zeta. rewrite (bind_Ok _ _ _ _ _ Hfind). cbn [fst snd].
      unfold setVec3Value, shader_set, bind at 1, bind at 1, get_this.
      now rewrite Hnull.
    + destruct (m_objectMaterials (this w)); [contradiction|simpl in E; lia].
  - intros Hempty. unfold SetShaderMaterial, bind at 1, get_this.
    now rewrite Hempty.
Qed.

(** X13: [SetShaderMaterial] does not test [m_pShaderManager].  With a null
    shader manager and a registry that holds any material, it calls through
    the null pointer, whatever the tag; with an empty registry it does
    nothing. *)
Theorem SetShaderMaterial_null_shader w tag :
  m_pShaderManager (this w) = None ->
  (m_objectMaterials (this w) <> [] ->
   SetShaderMaterial uninitialized_material tag w = Fault NullPointer) /\
  (m_objectMaterials (this w) = [] ->
   SetShaderMaterial uninitialized_material tag w = Ok tt w).
Proof. apply SetShaderMaterial_null_shader_aux. Qed.

Lemma material_first_at_app s (s' : SceneManager float) tag
    (extra : list (OBJECT_MATERIAL float)) :
  m_objectMaterials s' = m_objectMaterials s ++ extra ->
  (forall (i : nat) (e : OBJECT_MATERIAL float),
      material_first_at tag i e s -> material_first_at tag i e s') /\
  (forall (k : nat) (m : OBJECT_MATERIAL float),
      material_absent tag s ->
      extra !! k = Some m -> mat_tag m = tag ->
      (forall (j : nat) (e' : OBJECT_MATERIAL float),
          (j < k)%nat -> extra !! j = Some e' -> mat_tag e' <> tag) ->
      material_first_at tag (length (m_objectMaterials s) + k) m s').
Proof.
  intros Hmats. split.
  - intros i e (He & Ht & Hbefore). pose proof (lookup_lt_Some _ _ _ He) as Hlt.
    unfold material_first_at. rewrite Hmats.
    split; [now rewrite lookup_app_l|]. split; [exact Ht|].
    intros j e' Hj He'. rewrite lookup_app_l in He' by lia.
    now apply (Hbefore j e').
  - intros k m Habs Hk Ht Hbefore. unfold material_first_at. rewrite Hmats.
    split; [|split; [exact Ht|]].
    + rewrite lookup_app_r by lia.
      now replace (length (m_objectMaterials s) + k
                   - length (m_objectMaterials s))%nat with k by lia.
    + intros j e' Hj He'.
      destruct (Nat.lt_ge_cases j (length (m_objectMaterials s))) as [Hlt|Hge].
      * rewrite lookup_app_l in He' by lia. now apply (Habs j e').
      * rewrite lookup_app_r in He' by lia.
        apply (Hbefore (j - length (m_objectMaterials s))%nat e'); [lia|exact He'].
Qed.

(** X14: [DefineObjectMaterials] appends the five materials plastic, wood,
    middle, mother and glass behind whatever the registry holds and changes
    nothing else.  A tag that resolved before resolves to the same material
    after, so a definition made earlier wins over the appended one and a
    second call changes no lookup; a tag of the five that no material
    carried before resolves to the appended material. *)
Theorem DefineObjectMaterials_appends w :
  exists w' : World float,
    DefineObjectMaterials float_literal w = Ok tt w' /\
    m_objectMaterials (this w') =
      m_objectMaterials (this w) ++
      [plasticMaterial float_literal; woodMaterial float_literal;
       middleMaterial float_literal; motherMaterial float_literal;
       glassMaterial float_literal] /\
    m_loadedTextures (this w') = m_loadedTextures (this w) /\
    m_textureIDs (this w') = m_textureIDs (this w) /\
    m_pShaderManager (this w') = m_pShaderManager (this w) /\
    gl w' = gl w /\ cout w' = cout w /\
    (forall tag (i : nat) (e material : OBJECT_MATERIAL float),
        material_first_at tag i e (this w) ->
        FindMaterial tag material w' = Ok (true, copy_values e material) w') /\
    (forall m material : OBJECT_MATERIAL float,
        m ∈ [plasticMaterial float_literal; woodMaterial float_literal;
             middleMaterial float_literal; motherMaterial float_literal;
             glassMaterial float_literal] ->
        material_absent (mat_tag m) (this w) ->
        FindMaterial (mat_tag m) material w'
        = Ok (true, copy_values m material) w').
Proof.
  eexists. split; [reflexivity|].
  unfold put_this. fields.
  split; [now rewrite <- !app_assoc|].
  split; [reflexivity|]. split; [reflexivity|]. split; [reflexivity|].
  split; [reflexivity|]. split; [reflexivity|].
  match goal with
  | |- context [FindMaterial _ _ ?w1] => set (w' := w1)
  end.
  assert (Hmats : m_objectMaterials (this w') =
                  m_objectMaterials (this w) ++
                  [plasticMaterial float_literal; woodMaterial float_literal;
                   middleMaterial float_literal; motherMaterial float_literal;
                   glassMaterial float_literal])
    by (subst w'; fields; now rewrite <- !app_assoc).
  split.
  - intros tag i e material Hfirst.
    destruct (material_first_at_app (this w) (this w') tag _ Hmats) as [Hold _].
    destruct (Hold i e Hfirst) as (He & Ht & Hbefore).
    now apply (FindMaterial_first w' tag material e i).
  - intros m material Hin Habs.
    destruct (material_first_at_app (this w) (this w') (mat_tag m) _ Hmats)
      as [_ Hnew].
    assert (Hk : exists k : nat,
      material_first_at (mat_tag m)
        (length (m_objectMaterials (this w)) + k) m (this w')).
    { repeat (apply elem_of_cons in Hin as [->|Hin]);
        [exists 0%nat|exists 1%nat|exists 2%nat|exists 3%nat|exists 4%nat|
         inversion Hin].
      all: apply Hnew; [exact Habs|reflexivity|reflexivity|].
      all: intros j e' Hj He'.
      all: repeat (destruct j as [|j]; [injection He' as <-; discriminate|]).
      all: lia. }
    destruct Hk as [k (He & Ht & Hbefore)].
    exact (FindMaterial_first w' (mat_tag m) material m _ He Ht Hbefore).
Qed.

(** *** The facade, composed and framed *)

Lemma null_shader_manager_no_op_aux w (scaleXYZ positionXYZ : vec3 float)
    (Xrot Yrot Zrot r g b a u v : float) tag :
  m_pShaderManager (this w) = None ->
  SetTransformations scaleXYZ Xrot Yrot Zrot positionXYZ w = Ok tt w /\
  SetShaderColor r g b a w = Ok tt w /\
  SetShaderTexture tag w = Ok tt w /\
  SetTextureUVScale u v w = Ok tt w.
Proof.
  intros Hnull.
  unfold SetTransformations, SetShaderColor, SetShaderTexture, SetTextureUVScale.
  cbv zeta.
  rewrite !(bind_Ok _ _ _ _ _ (shader_not_null_None w Hnull)).
  repeat split.
Qed.

Lemma write_uniforms_nil w : write_uniforms [] w = w.
Proof.
  destruct w as [[[sm|] n arr mats] g c]; unfold write_uniforms; simpl;
    [|reflexivity].
  destruct sm as [ws]. simpl. now rewrite app_nil_r.
Qed.

Lemma FindTextureSlot_while_readonly (fuel : nat) :
  forall tag (slot index : Z) (bFound : bool) w (r : Z) (w' : World float),
    FindTextureSlot_while fuel tag slot index bFound w = Ok r w' -> w' = w.
Proof.
  induction fuel as [|fuel IH]; intros tag slot index bFound w r w' Hrun.
  - discriminate Hrun.
  - cbn [FindTextureSlot_while] in Hrun. unfold bind at 1, get_this in Hrun.
    destruct ((index <? m_loadedTextures (this w)) && negb bFound).
    + unfold bind at 1, texture_at, bind at 1, get_this in Hrun.
      destruct (0 <=? index); [|discriminate].
      destruct (m_textureIDs (this w) !! Z.to_nat index) as [e|];
        [|discriminate].
      unfold ret at 1 in Hrun.
      destruct (compare_is_zero (tex_tag e) tag); exact (IH _ _ _ _ _ _ _ Hrun).
    + unfold ret in Hrun. now injection Hrun.
Qed.

Lemma FindTextureSlot_readonly w tag (r : Z) (w' : World float) :
  FindTextureSlot tag w = Ok r w' -> w' = w.
Proof.
  unfold FindTextureSlot, bind at 1, get_this.
  apply FindTextureSlot_while_readonly.
Qed.

(** X15: on a shader manager and a registry whose counter is within the
    array, [SetShaderTexture] followed by [SetShaderColor] ends flat: the
    uniform bUseTexture is 0, objectColor is the colour and blendFactor is
    0, while the sampler objectTexture keeps the value [FindTextureSlot]
    gave for the tag. *)
Theorem SetShaderTexture_then_SetShaderColor w (sm : ShaderManager float)
    tag (r g b a : float) :
  m_pShaderManager (this w) = Some sm ->
  textures_in_bounds (this w) ->
  exists (slot : Z) (w' : World float),
    FindTextureSlot tag w = Ok slot w /\
    bind (SetShaderTexture tag) (fun _ => SetShaderColor r g b a) w = Ok tt w' /\
    uniform_value w' g_UseTextureName = Some (UInt 0) /\
    uniform_value w' g_ColorValueName = Some (UVec4 (Vec4 r g b a)) /\
    uniform_value w' "blendFactor" = Some (UFloat f_zero) /\
    uniform_value w' g_TextureValueName = Some (USampler2D slot).
Proof.
  intros Hsm Hb.
  assert (Hslot : exists slot,
             forall ws, FindTextureSlot tag (write_uniforms ws w)
                        = Ok slot (write_uniforms ws w)).
  { destruct (texture_absent_or_first (this w) tag) as [Habs|[i Hi]].
    - exists (-1). intros ws. now apply FindTextureSlot_absent_frame.
    - exists (Z.of_nat i). intros ws. now apply FindTextureSlot_found_frame. }
  destruct Hslot as [slot Hslot]. exists slot. eexists.
  split; [pose proof (Hslot []) as Hnil;
          now rewrite write_uniforms_nil in Hnil|].
  split.
  - rewrite (bind_Ok _ _ _ _ _ (SetShaderTexture_ok w sm tag slot Hsm Hslot)).
    erewrite SetShaderColor_ok by (eapply write_uniforms_shader; exact Hsm).
    rewrite write_uniforms_app. reflexivity.
  - rewrite !(uniform_value_write w sm) by exact Hsm. repeat split; reflexivity.
Qed.

(** X16: the five facade methods touch nothing but uniforms.  Whenever
    [SetTransformations], [SetShaderColor], [SetShaderTexture],
    [SetTextureUVScale] or [SetShaderMaterial] returns, the texture and
    material registries, the counter, the OpenGL context and the console
    are as before, and the uniforms written earlier are still there, with
    the new writes behind them. *)
Theorem facade_writes_only_uniforms w (w' : World float)
    (scaleXYZ positionXYZ : vec3 float)
    (Xrot Yrot Zrot r g b a u v : float) tag :
  (SetTransformations scaleXYZ Xrot Yrot Zrot positionXYZ w = Ok tt w' ->
   only_uniforms_written w w') /\
  (SetShaderColor r g b a w = Ok tt w' -> only_uniforms_written w w') /\
  (SetShaderTexture tag w = Ok tt w' -> only_uniforms_written w w') /\
  (SetTextureUVScale u v w = Ok tt w' -> only_uniforms_written w w') /\
  (SetShaderMaterial uninitialized_material tag w = Ok tt w' ->
   only_uniforms_written w w').
Proof.
  unfold only_uniforms_written.
  destruct (m_pShaderManager (this w)) as [sm|] eqn:Hsm.
  - split; [|split; [|split; [|split]]]; intros Hrun.
    + rewrite (SetTransformations_model_matrix_aux w sm) in Hrun by exact Hsm.
      injection Hrun as <-. eauto.
    + rewrite (SetShaderColor_ok w sm) in Hrun by exact Hsm.
      injection Hrun as <-. eauto.
    + unfold SetShaderTexture in Hrun.
      rewrite (bind_Ok _ _ _ _ _ (shader_not_null_Some w sm Hsm)) in Hrun.
      unfold setIntValue, setSampler2DValue, setFloatValue in Hrun.
      erewrite bind_Ok in Hrun by (eapply shader_set_ok; exact Hsm).
      unfold bind at 1 in Hrun.
      destruct (FindTextureSlot tag _) as [slot w1|] eqn:Hfind; [|discriminate].
      apply FindTextureSlot_readonly in Hfind. subst w1.
      erewrite bind_Ok in Hrun
        by (eapply shader_set_ok; eapply write_uniforms_shader; exact Hsm).
      rewrite write_uniforms_app in Hrun.
      erewrite bind_Ok in Hrun
        by (eapply shader_set_ok; eapply write_uniforms_shader; exact Hsm).
      rewrite write_uniforms_app in Hrun.
      erewrite shader_set_ok in Hrun
        by (eapply write_uniforms_shader; exact Hsm).
      rewrite write_uniforms_app in Hrun.
      injection Hrun as <-. eauto.
    + rewrite (SetTextureUVScale_ok w sm) in Hrun by exact Hsm.
      injection Hrun as <-. eauto.
    + destruct (material_absent_or_first (this w) tag)
        as [Habs|(i & e & Hfirst)].
      * destruct (m_objectMaterials (this w)) as [|m0 mats] eqn:Hmats.
        -- rewrite (SetShaderMaterial_empty uninitialized_material w tag Hmats)
             in Hrun.
           injection Hrun as <-. exists []. now rewrite write_uniforms_nil.
        -- rewrite (SetShaderMaterial_unresolved uninitialized_material w sm tag)
             in Hrun; [injection Hrun as <-; eauto|exact Hsm| |].
           ++ now rewrite Hmats.
           ++ intros j e0 He0. now apply (Habs j e0).
      * rewrite (SetShaderMaterial_resolved_aux w sm tag i e Hsm Hfirst) in Hrun.
        injection Hrun as <-. eauto.
  - destruct (null_shader_manager_no_op_aux w scaleXYZ positionXYZ
                Xrot Yrot Zrot r g b a u v tag Hsm) as (H1 & H2 & H3 & H4).
    split; [|split; [|split; [|split]]]; intros Hrun.
    1: rewrite H1 in Hrun. 2: rewrite H2 in Hrun.
    3: rewrite H3 in Hrun. 4: rewrite H4 in Hrun.
    1-4: injection Hrun as <-; exists []; now rewrite write_uniforms_nil.
    destruct (m_objectMaterials (this w)) as [|m0 mats] eqn:Hmats.
    + rewrite (SetShaderMaterial_empty uninitialized_material w tag Hmats) in Hrun.
      injection Hrun as <-. exists []. now rewrite write_uniforms_nil.
    + destruct (SetShaderMaterial_null_shader_aux w tag Hsm) as [Hfault _].
      rewrite Hfault in Hrun by now rewrite Hmats. discriminate Hrun.
Qed.

(** *** The scene's textures *)

Lemma LoadSceneTextures_as_run w :
  LoadSceneTextures stbi_load w =
  bind (CreateGLTexture_all stbi_load scene_textures)
       (fun _ => BindGLTextures) w.
Proof.
  unfold LoadSceneTextures, scene_textures. cbn [CreateGLTexture_all].
  unfold bind, ret.
  repeat match goal with
         | |- context [CreateGLTexture ?f ?file ?t ?w0] =>
             destruct (CreateGLTexture f file t w0) as [? ?|]
         end; reflexivity.
Qed.

Lemma CreateGLTexture_returns w (filename : string) tag :
  0 <= m_loadedTextures (this w) < Z.of_nat (length (m_textureIDs (this w))) ->
  m_loadedTextures (this w) < INT_MAX ->
  exists (b : bool) (w' : World float),
    CreateGLTexture stbi_load filename tag w = Ok b w' /\
    m_loadedTextures (this w) <= m_loadedTextures (this w')
      <= m_loadedTextures (this w) + 1 /\
    length (m_textureIDs (this w')) = length (m_textureIDs (this w)).
Proof.
  intros Hn Hmax.
  destruct (stbi_load filename) as [image|] eqn:Hload.
  - destruct (decide (img_channels image = 3 \/ img_channels image = 4))
      as [Hch|Hch].
    + destruct (CreateGLTexture_succeeds stbi_load w filename tag) as [w' Hrun];
        [now exists image|exact Hn|exact Hmax|].
      destruct (CreateGLTexture_true stbi_load w filename tag w' Hrun)
        as (n & e & name & Hcount & He & Hcount' & Harr & _ & _).
      exists true, w'. split; [exact Hrun|].
      rewrite Harr, length_insert. split; [lia|reflexivity].
    + exists false. unfold_load. rewrite Hload.
      destruct (Z.eqb_spec (img_channels image) 3); [tauto|].
      destruct (Z.eqb_spec (img_channels image) 4); [tauto|].
      eexists. split; [reflexivity|]. fields. split; [lia|reflexivity].
  - exists false. unfold_load. rewrite Hload.
    eexists. split; [reflexivity|]. fields. split; [lia|reflexivity].
Qed.

Lemma CreateGLTexture_all_returns (loads : list (string * string)) :
  forall w,
    0 <= m_loadedTextures (this w) ->
    m_loadedTextures (this w) + Z.of_nat (length loads)
      <= Z.of_nat (length (m_textureIDs (this w))) ->
    Z.of_nat (length (m_textureIDs (this w))) <= INT_MAX ->
    exists (results : list bool) (w' : World float),
      CreateGLTexture_all stbi_load loads w = Ok results w'.
Proof.
  induction loads as [|[filename tag] loads IH]; intros w H0 Hroom Hmax.
  - eexists _, _. reflexivity.
  - cbn [length] in Hroom.
    destruct (CreateGLTexture_returns w filename tag)
      as (b & w1 & H1 & Hcount & Hlen); [lia|lia|].
    destruct (IH w1) as (bs & w2 & H2); [lia|rewrite Hlen; lia|now rewrite Hlen|].
    exists (b :: bs), w2. cbn [CreateGLTexture_all].
    unfold bind at 1. rewrite H1. unfold bind at 1. now rewrite H2.
Qed.

(** X17: [LoadSceneTextures] completes whatever files are missing.  On a
    fresh registry with room for six textures it returns normally for
    every decoder, having run its six loads and then [BindGLTextures]; the
    tags of the loads that succeeded resolve to slots 0, 1, 2, ... in load
    order, and the call ends by binding texture unit i to the ID in slot
    i, for each slot in use. *)
Theorem LoadSceneTextures_completes w :
  m_loadedTextures (this w) = 0 ->
  (6 <= length (m_textureIDs (this w)))%nat ->
  Z.of_nat (length (m_textureIDs (this w))) <= INT_MAX ->
  exists (results : list bool) (w1 : World float),
    CreateGLTexture_all stbi_load scene_textures w = Ok results w1 /\
    LoadSceneTextures stbi_load w =
      Ok tt (with_gl_calls
               (bind_calls 0 (take (Z.to_nat (m_loadedTextures (this w1)))
                                   (m_textureIDs (this w1)))) w1) /\
    (forall (k : nat) tag (w' : World float),
        LoadSceneTextures stbi_load w = Ok tt w' ->
        registered_tags scene_textures results !! k = Some tag ->
        FindTextureSlot tag w' = Ok (Z.of_nat k) w').
Proof.
  intros H0 Hroom Hmax.
  destruct (CreateGLTexture_all_returns scene_textures w)
    as (results & w1 & Hrun); [lia|simpl; lia|exact Hmax|].
  destruct (registry_tags_all_results scene_textures [] w results w1)
    as [Hinv Hlen]; [|exact Hrun|].
  { unfold registry_tags. simpl. split; [exact H0|]. split; [lia|].
    intros i t Hi. discriminate. }
  cbn [app] in Hinv.
  assert (Hb1 : textures_in_bounds (this w1))
    by (destruct Hinv as (Hc & Hl & _); unfold textures_in_bounds; lia).
  assert (Hload : LoadSceneTextures stbi_load w =
    Ok tt (with_gl_calls
             (bind_calls 0 (take (Z.to_nat (m_loadedTextures (this w1)))
                                 (m_textureIDs (this w1)))) w1)).
  { rewrite LoadSceneTextures_as_run. rewrite (bind_Ok _ _ _ _ _ Hrun).
    now apply BindGLTextures_binds_slots_aux. }
  exists results, w1. split; [exact Hrun|]. split; [exact Hload|].
  intros k tag w' Hw' Hk. rewrite Hload in Hw'. injection Hw' as <-.
  apply (registry_tags_find _ (registered_tags scene_textures results) k tag).
  - exact Hinv.
  - eapply sublist_NoDup; [|apply registered_tags_sublist].
    apply (bool_decide_unpack _). vm_compute. exact I.
  - exact Hk.
Qed.

End FurtherProperties.

(** *** The transform composer in exact arithmetic *)

Ltac exact_entries :=
  cbv [glm_scale glm_rotate glm_translate glm_scale_m glm_rotate_m
       glm_translate_m glm_normalize glm_dot glm_radians
       mat4_mul mat4_mul_col mat4_identity mat4_diag
       vec3_muls vec3_smul vec4_add vec4_muls
       f_add f_sub f_mul f_zero f_one f_cos f_sin f_inversesqrt f_deg2rad
       Scalar_R
       scale_matrix translation_matrix rotation_matrix_X rotation_matrix_Y
       rotation_matrix_Z radians_of_degrees matrix_product mat4_of_rows
       mat4_entry vec4_component
       v3_x v3_y v3_z v4_x v4_y v4_z v4_w col0 col1 col2 col3].









(** The order of the factors matters: translation times scale is not scale
    times translation. *)
Lemma matrix_product_order_matters :
  matrix_product (translation_matrix (Vec3 1 0 0)%R)
                 (scale_matrix (Vec3 2 1 1)%R)
  <> matrix_product (scale_matrix (Vec3 2 1 1)%R)
                    (translation_matrix (Vec3 1 0 0)%R).
Proof.
  exact_entries. intros Heq.
  apply (f_equal (fun m : mat4 R => v4_x (col3 m))) in Heq.
  cbn [v4_x col3] in Heq. lra.
Qed.




Lemma mat4_mul_identity_r (m : mat4 R) : mat4_mul m mat4_identity = m.
Proof.
  destruct m as [[a00 a01 a02 a03] [a10 a11 a12 a13]
                 [a20 a21 a22 a23] [a30 a31 a32 a33]].
  cbv [mat4_mul mat4_mul_col mat4_identity mat4_diag vec4_add vec4_muls
       f_add f_mul f_zero f_one Scalar_R v4_x v4_y v4_z v4_w
       col0 col1 col2 col3].
  f_equal; f_equal; ring.
Qed.

Lemma compose_spec_without_rotation (sx sy sz px py pz : R) :
  compose_spec (Vec3 sx sy sz) (Vec3 f_zero f_zero f_zero) (Vec3 px py pz)
  = (Mat4 (Vec4 sx 0 0 0) (Vec4 0 sy 0 0) (Vec4 0 0 sz 0) (Vec4 px py pz 1))%R.
Proof.
  unfold compose_spec. cbv zeta. cbn [v3_x v3_y v3_z].
  rewrite glm_rotate_zero_X, glm_rotate_zero_Y, glm_rotate_zero_Z.
  rewrite !mat4_mul_identity_r.
  cbv [glm_translate glm_scale glm_translate_m glm_scale_m
       mat4_mul mat4_mul_col mat4_identity mat4_diag vec4_add vec4_muls
       f_add f_mul f_zero f_one Scalar_R v3_x v3_y v3_z v4_x v4_y v4_z v4_w
       col0 col1 col2 col3].
  f_equal; f_equal; ring.
Qed.

(** X18: in exact arithmetic, the model matrix [SetTransformations] writes
    maps a point to what the five transforms do to it one after the other:
    the scale first, then the rotation about X, then about Y, then about Z,
    and the translation last. *)
Theorem SetTransformations_applies_in_order (w : World R)
    (sm : ShaderManager R) (scaleXYZ positionXYZ : vec3 R)
    (Xrot Yrot Zrot : R) :
  m_pShaderManager (this w) = Some sm ->
  exists model : mat4 R,
    SetTransformations scaleXYZ Xrot Yrot Zrot positionXYZ w =
      Ok tt (write_uniforms [(g_ModelName, UMat4 model)] w) /\
    forall v : vec4 R,
      mat4_mul_col model v =
      mat4_mul_col (glm_translate positionXYZ)
        (mat4_mul_col
           (glm_rotate (glm_radians Zrot) (Vec3 f_zero f_zero f_one))
           (mat4_mul_col
              (glm_rotate (glm_radians Yrot) (Vec3 f_zero f_one f_zero))
              (mat4_mul_col
                 (glm_rotate (glm_radians Xrot) (Vec3 f_one f_zero f_zero))
                 (mat4_mul_col (glm_scale scaleXYZ) v)))).
Proof.
  intros Hsm. eexists. split.
  - apply (SetTransformations_model_matrix_aux w sm). exact Hsm.
  - intros v.
    exact (compose_spec_applies_in_order scaleXYZ (Vec3 Xrot Yrot Zrot)
             positionXYZ v).
Qed.

(** X19: in exact arithmetic, with the three rotations at 0 degrees the
    model matrix [SetTransformations] writes has the scale factors on its
    diagonal and the position as its last column, and zeros elsewhere. *)
Theorem SetTransformations_without_rotation (w : World R)
    (sm : ShaderManager R) (sx sy sz px py pz : R) :
  m_pShaderManager (this w) = Some sm ->
  SetTransformations (Vec3 sx sy sz) f_zero f_zero f_zero (Vec3 px py pz) w =
  Ok tt (write_uniforms
           [(g_ModelName,
             UMat4 (Mat4 (Vec4 sx 0 0 0) (Vec4 0 sy 0 0) (Vec4 0 0 sz 0)
                         (Vec4 px py pz 1))%R)] w).
Proof.
  intros Hsm.
  rewrite (SetTransformations_model_matrix_aux w sm) by exact Hsm.
  now rewrite compose_spec_without_rotation.
Qed.

(** *** The further statements on concrete scenes *)

Lemma loaded_world_in_bounds : textures_in_bounds (this loaded_world).
Proof. unfold textures_in_bounds. simpl. lia. Qed.

Lemma loaded_world_blade_first : texture_first_at "blade" 2 (this loaded_world).
Proof.
  split; [simpl; lia|]. split; [eexists; split; reflexivity|].
  intros j e Hj He. simpl in He.
  do 2 (destruct j as [|j]; [injection He as <-; discriminate|]).
  lia.
Qed.

Lemma scene_world_glass_first (shader : option (ShaderManager R)) :
  material_first_at "glass" 4
    {| mat_diffuseColor := Vec3 0.2 0.2 0.2; mat_specularColor := Vec3 1 1 1;
       mat_shininess := 95; mat_tag := "glass" |}%R
    (this (scene_world shader)).
Proof.
  split; [reflexivity|]. split; [reflexivity|].
  intros j e Hj He. simpl in He.
  do 4 (destruct j as [|j]; [injection He as <-; discriminate|]).
  lia.
Qed.

Lemma FindTextureSlot_first_or_sentinel_witness :
  exists r,
    FindTextureSlot "wall" (scene_world None) = Ok r (scene_world None) /\
    ((r = -1 /\ texture_absent "wall" (this (scene_world None))) \/
     (exists i : nat,
         r = Z.of_nat i /\
         0 <= r < m_loadedTextures (this (scene_world None)) /\
         texture_first_at "wall" i (this (scene_world None)))).
Proof.
  exact (FindTextureSlot_first_or_sentinel (scene_world None) "wall"
           (scene_world_in_bounds None)).
Defined.

Lemma FindTextureID_first_or_sentinel_witness :
  exists r,
    FindTextureID "wall" (scene_world None) = Ok r (scene_world None) /\
    ((r = -1 /\ texture_absent "wall" (this (scene_world None))) \/
     (exists (i : nat) (e : TEXTURE_INFO),
         FindTextureSlot "wall" (scene_world None)
           = Ok (Z.of_nat i) (scene_world None) /\
         m_textureIDs (this (scene_world None)) !! i = Some e /\
         tex_tag e = "wall"%string /\
         r = int_of_uint32 (tex_ID e) /\
         (0 <= tex_ID e < 2 ^ 31 -> r = tex_ID e))).
Proof.
  exact (FindTextureID_first_or_sentinel (scene_world None) "wall"
           (scene_world_in_bounds None)).
Defined.

Lemma CreateGLTexture_false_causes_witness :
  this undecodable_world = this loaded_world /\
  ((scene_files "textures/missing.jpg" = None /\
    gl undecodable_world = gl loaded_world /\
    cout undecodable_world
      = cout loaded_world ++ [CouldNotLoad "textures/missing.jpg"]) \/
   (exists image,
       scene_files "textures/missing.jpg" = Some image /\
       img_channels image <> 3 /\ img_channels image <> 4)).
Proof.
  apply (CreateGLTexture_false_causes scene_files loaded_world
           "textures/missing.jpg" "missing" undecodable_world).
  vm_compute. reflexivity.
Defined.

Lemma CreateGLTexture_unsupported_keeps_name_witness :
  exists w',
    CreateGLTexture scene_files "textures/gray.png" "gray" loaded_world
      = Ok false w' /\
    glTextureNames (gl w') = [1; 2; 3; 4; 5; 6; 7] /\
    glTrace (gl w') =
      glTrace (gl loaded_world) ++
      [GenTextures 7; BindTexture2D 7;
       TexParameteri2D GL_TEXTURE_WRAP_S GL_REPEAT;
       TexParameteri2D GL_TEXTURE_WRAP_T GL_REPEAT;
       TexParameteri2D GL_TEXTURE_MIN_FILTER GL_LINEAR;
       TexParameteri2D GL_TEXTURE_MAG_FILTER GL_LINEAR].
Proof.
  apply (CreateGLTexture_unsupported_keeps_name scene_files loaded_world
           "textures/gray.png" "gray"
           {| img_width := 512; img_height := 512; img_channels := 1 |}).
  - reflexivity.
  - simpl. lia.
  - simpl. lia.
Defined.

Lemma CreateGLTexture_registers_witness :
  exists w',
    CreateGLTexture scene_files "textures/wood.jpg" "wood2" loaded_world
      = Ok true w' /\
    m_loadedTextures (this w') = 7 /\
    m_textureIDs (this w') !! 6%nat = Some {| tex_ID := 7; tex_tag := "wood2" |}.
Proof.
  destruct (CreateGLTexture_registers scene_files loaded_world
              "textures/wood.jpg" "wood2"
              {| img_width := 512; img_height := 512; img_channels := 3 |})
    as (w' & Hrun & Hcount & Harr & _).
  - reflexivity.
  - left. reflexivity.
  - simpl. lia.
  - vm_compute. reflexivity.
  - exists w'. split; [exact Hrun|]. split; [exact Hcount|].
    rewrite Harr. reflexivity.
Defined.

Lemma CreateGLTexture_full_array_witness :
  CreateGLTexture scene_files "textures/wood.jpg" "stand" full_world
  = Fault OutOfBounds.
Proof.
  apply (CreateGLTexture_full_array scene_files full_world).
  - exists {| img_width := 512; img_height := 512; img_channels := 3 |}.
    split; [reflexivity|left; reflexivity].
  - simpl. lia.
Defined.

Lemma CreateGLTexture_keeps_slots_witness :
  FindTextureSlot "blade" loaded_world = Ok 2 loaded_world /\
  FindTextureSlot "blade" reloaded_world = Ok 2 reloaded_world.
Proof.
  apply (CreateGLTexture_keeps_slots scene_files loaded_world
           "textures/wood.jpg" "blade" true reloaded_world "blade" 2).
  - vm_compute. reflexivity.
  - exact loaded_world_in_bounds.
  - exact loaded_world_blade_first.
Defined.

Lemma CreateGLTexture_all_registered_witness :
  m_loadedTextures (this mixed_world) = 2 /\
  FindTextureSlot "stand" mixed_world = Ok 0 mixed_world /\
  FindTextureSlot "gpu" mixed_world = Ok 1 mixed_world /\
  FindTextureSlot "gray" mixed_world = Ok (-1) mixed_world.
Proof.
  destruct (CreateGLTexture_all_registered scene_files (new_world None)
              mixed_loads [true; false; true] mixed_world)
    as (_ & Hcount & Hslots & Hmiss).
  - reflexivity.
  - apply (bool_decide_unpack _). vm_compute. exact I.
  - vm_compute. reflexivity.
  - split; [exact Hcount|].
    split; [exact (Hslots 0%nat "stand"%string eq_refl)|].
    split; [exact (Hslots 1%nat "gpu"%string eq_refl)|].
    apply Hmiss. apply (bool_decide_unpack _). vm_compute. exact I.
Defined.

Lemma BindGLTextures_binds_slots_witness :
  BindGLTextures loaded_world =
  Ok tt (with_gl_calls
           [ActiveTexture 0; BindTexture2D 1; ActiveTexture 1; BindTexture2D 2;
            ActiveTexture 2; BindTexture2D 3; ActiveTexture 3; BindTexture2D 4;
            ActiveTexture 4; BindTexture2D 5; ActiveTexture 5; BindTexture2D 6]
           loaded_world).
Proof.
  exact (BindGLTextures_binds_slots loaded_world loaded_world_in_bounds).
Defined.

Lemma DestroyGLTextures_releases_nothing_witness :
  exists (w' : World R) (generated : list Z),
    DestroyGLTextures loaded_world = Ok tt w' /\
    glTextureNames (gl w') = [1; 2; 3; 4; 5; 6] ++ generated /\
    length generated = 6%nat /\
    m_loadedTextures (this w') = 6.
Proof.
  destruct (DestroyGLTextures_releases_nothing loaded_world
              loaded_world_in_bounds)
    as (w' & generated & Hrun & Hnames & Hlen & Hcount & _).
  exists w', generated. repeat split; assumption.
Defined.

Lemma SetShaderMaterial_resolved_witness :
  SetShaderMaterial redefined_plastic "glass" (scene_world (Some no_writes)) =
  Ok tt (write_uniforms
           [("material.diffuseColor"%string, UVec3 (Vec3 0.2 0.2 0.2)%R);
            ("material.specularColor"%string, UVec3 (Vec3 1 1 1)%R);
            ("material.shininess"%string, UFloat 95%R)]
           (scene_world (Some no_writes))).
Proof.
  exact (SetShaderMaterial_resolved redefined_plastic
           (scene_world (Some no_writes)) no_writes "glass" 4 _ eq_refl
           (scene_world_glass_first _)).
Defined.

Lemma SetShaderMaterial_null_shader_witness :
  SetShaderMaterial redefined_plastic "glass" (scene_world None)
  = Fault NullPointer.
Proof.
  apply (SetShaderMaterial_null_shader redefined_plastic (scene_world None)
           "glass" eq_refl).
  discriminate.
Defined.

Lemma SetShaderTexture_then_SetShaderColor_witness :
  exists (slot : Z) (w' : World R),
    FindTextureSlot "blade" (scene_world (Some no_writes))
      = Ok slot (scene_world (Some no_writes)) /\
    bind (SetShaderTexture "blade") (fun _ => SetShaderColor 1%R 0%R 0%R 1%R)
      (scene_world (Some no_writes)) = Ok tt w' /\
    uniform_value w' g_UseTextureName = Some (UInt 0) /\
    uniform_value w' g_ColorValueName = Some (UVec4 (Vec4 1 0 0 1)%R) /\
    uniform_value w' "blendFactor" = Some (UFloat f_zero) /\
    uniform_value w' g_TextureValueName = Some (USampler2D slot).
Proof.
  exact (SetShaderTexture_then_SetShaderColor (scene_world (Some no_writes))
           no_writes "blade" 1%R 0%R 0%R 1%R eq_refl
           (scene_world_in_bounds _)).
Defined.

Lemma LoadSceneTextures_completes_witness :
  exists (results : list bool) (w1 : World R),
    CreateGLTexture_all scene_files scene_textures (new_world None)
      = Ok results w1 /\
    LoadSceneTextures scene_files (new_world None) =
      Ok tt (with_gl_calls
               (bind_calls 0 (take (Z.to_nat (m_loadedTextures (this w1)))
                                   (m_textureIDs (this w1)))) w1).
Proof.
  destruct (LoadSceneTextures_completes scene_files (new_world None))
    as (results & w1 & Hrun & Hload & _).
  - reflexivity.
  - simpl. lia.
  - vm_compute. discriminate.
  - exists results, w1. split; assumption.
Defined.

Lemma SetTransformations_applies_in_order_witness :
  exists model : mat4 R,
    SetTransformations (Vec3 2 1 1)%R 0%R 90%R 0%R (Vec3 0 3 0)%R
      (scene_world (Some no_writes)) =
      Ok tt (write_uniforms [(g_ModelName, UMat4 model)]
               (scene_world (Some no_writes))).
Proof.
  destruct (SetTransformations_applies_in_order (scene_world (Some no_writes))
              no_writes (Vec3 2 1 1)%R (Vec3 0 3 0)%R 0%R 90%R 0%R eq_refl)
    as (model & Hrun & _).
  exists model. exact Hrun.
Defined.

Lemma SetTransformations_without_rotation_witness :
  SetTransformations (float := R) (Vec3 20 1 15)%R f_zero f_zero f_zero
    (Vec3 0 0 0)%R (scene_world (Some no_writes)) =
  Ok tt (write_uniforms
           [(g_ModelName,
             UMat4 (Mat4 (Vec4 20 0 0 0) (Vec4 0 1 0 0) (Vec4 0 0 15 0)
                         (Vec4 0 0 0 1))%R)]
           (scene_world (Some no_writes))).
Proof.
  exact (SetTransformations_without_rotation (scene_world (Some no_writes))
           no_writes 20%R 1%R 15%R 0%R 0%R 0%R eq_refl).
Defined.

Lemma facade_writes_only_uniforms_witness :
  only_uniforms_written (scene_world (Some no_writes))
    (write_uniforms
       [(g_UseTextureName, UInt 0);
        (g_ColorValueName, UVec4 (Vec4 1 0 0 1)%R);
        ("blendFactor"%string, UFloat f_zero)]
       (scene_world (Some no_writes))).
Proof.
  apply (proj1 (proj2 (facade_writes_only_uniforms redefined_plastic
                         (scene_world (Some no_writes)) _
                         (Vec3 1 1 1)%R (Vec3 0 0 0)%R 0%R 0%R 0%R
                         1%R 0%R 0%R 1%R 1%R 1%R "blade"))).
  exact (SetShaderColor_ok (scene_world (Some no_writes)) no_writes
           1%R 0%R 0%R 1%R eq_refl).
Defined.
